(** * Symptom Tracker: the analysis function, the intake form and the dashboard

    A shallow embedding of
    - [supabase/functions/analyze-symptoms/index.ts] (module [AnalyzeSymptoms]),
    - the symptom form component with [handleSubmit] (module [Symptoms]),
    - [src/pages/Dashboard.tsx] (module [Dashboard]),
    - the parts of the SQL schema the two pages rely on (module [Schema]),
    over a small model of the JavaScript values these files handle
    (module [Js]). *)

From Stdlib Require Import String Ascii DecimalString SpecFloat.
From Stdlib Require Import List NArith ZArith Bool Lia.
From Stdlib Require Import Permutation Sorted.
Import ListNotations.

Set Warnings "-register-all".

Set Implicit Arguments.

(* ================================================================= *)
(** * JavaScript values, property access and JSON *)
(* ================================================================= *)

Module Js.

(** A JavaScript string is a sequence of UTF-16 code units. *)
Definition jsstring := list N.

(** ASCII text of this development as a JavaScript string. *)
Definition str (s : string) : jsstring :=
  map N_of_ascii (list_ascii_of_string s).

(** Text written with apostrophes where the JavaScript text has double
    quotes; only used to write JSON texts down. *)
Definition txt (s : string) : jsstring :=
  map (fun c => if N.eqb c 39 then 34%N else c) (str s).

Arguments str : simpl never.
Arguments txt : simpl never.

Fixpoint streq (a b : jsstring) : bool :=
  match a, b with
  | [], [] => true
  | x :: a', y :: b' => N.eqb x y && streq a' b'
  | _, _ => false
  end.

(** A JavaScript number is a binary64 value. *)
Definition double := spec_float.

(** The number value of the decimal [m * 10^e]: the binary64 value nearest
    to it, ties to even, an infinity beyond the range.  A negative power of
    ten is divided out with enough bits and a sticky bit for the remainder,
    so that the one rounding of [binary_normalize] is the rounding of the
    exact quotient.  The sign of a zero is not kept: this code cannot tell
    the two zeros apart. *)
Definition to_double (m e : Z) : double :=
  if Z.eqb m 0 then S754_zero false
  else if Z.leb 0 e then binary_normalize 53 1024 (m * 10 ^ e) 0 false
  else
    let d := (10 ^ (- e))%Z in
    let s := Z.max 0 (Z.log2 d - Z.log2 (Z.abs m) + 64) in
    let q := (Z.abs m * 2 ^ s / d)%Z in
    let sticky := if Z.eqb ((Z.abs m * 2 ^ s) mod d) 0 then 0%Z else 1%Z in
    binary_normalize 53 1024 (Z.sgn m * (2 * q + sticky)) (- s - 1) false.

(** JavaScript values made of JSON data, as [JSON.parse] and object
    literals build them.  An object holds its own properties in the order
    in which they are enumerated, each key once. *)
Inductive json : Type :=
| JNull
| JBool (b : bool)
| JNumber (x : double)
| JStr (s : jsstring)
| JArr (l : list json)
| JObj (ms : list (jsstring * json)).

(** The number written [m] followed by [e] zeros (or with the point moved
    left): [JNum 60 0] is 60. *)
Definition JNum (m e : Z) : json := JNumber (to_double m e).

(** A JavaScript value read from such data: [None] is [undefined]. *)
Definition jsval := option json.
Definition undefined : jsval := None.

(** Thrown values: [Error] instances carry their [message]. *)
Inductive thrown : Type :=
| ErrorInstance (message : jsstring)
| OtherValue.

(** What the engine and the locale decide and the sources do not: the text
    of a number; the messages of the errors the engine itself throws
    ([TypeError_message k] for reading [k] of [undefined],
    [TypeError_null_message k] for reading [k] of [null],
    [NotAFunction_message e] for calling [e] that is not a function,
    [Destructure_message k] for taking [k] out of [null],
    [NoPrimitive_message] for an object without a text,
    [SyntaxError_message text] for [JSON.parse(text)]); the local
    rendering of a date. *)
Record Engine : Type := {
  Number_toString : double -> jsstring;
  TypeError_message : jsstring -> jsstring;
  TypeError_null_message : jsstring -> jsstring;
  NotAFunction_message : jsstring -> jsstring;
  Destructure_message : jsstring -> jsstring;
  NoPrimitive_message : jsstring;
  SyntaxError_message : jsstring -> jsstring;
  toLocaleDateString : Z -> jsstring
}.

(** ** Truthiness and [||] *)

Definition truthy (v : jsval) : bool :=
  match v with
  | None => false
  | Some JNull => false
  | Some (JBool b) => b
  | Some (JNumber x) =>
      match x with
      | S754_zero _ | S754_nan => false
      | _ => true
      end
  | Some (JStr s) => match s with [] => false | _ => true end
  | Some (JArr _) => true
  | Some (JObj _) => true
  end.

(** [a || b] *)
Definition or_else (a b : jsval) : jsval := if truthy a then a else b.

(** ** Property reads *)

(** The member a read of [k] sees. *)
Fixpoint lookup (k : jsstring) (ms : list (jsstring * json)) : jsval :=
  match ms with
  | [] => None
  | (k', v) :: ms' =>
      match lookup k ms' with
      | Some w => Some w
      | None => if streq k k' then Some v else None
      end
  end.

(** [v.k] for a name [k] that no prototype defines ([symptoms], [choices],
    [message], [content], [riskLevel]): an own member of an object,
    [undefined] on every other value, a [TypeError] on [undefined] and
    [null]. *)
Definition get (eng : Engine) (v : jsval) (k : jsstring) : thrown + jsval :=
  match v with
  | None => inl (ErrorInstance (TypeError_message eng k))
  | Some JNull => inl (ErrorInstance (TypeError_null_message eng k))
  | Some (JObj ms) => inr (lookup k ms)
  | Some _ => inr None
  end.

(** [v[0]] *)
Definition get0 (eng : Engine) (v : jsval) : thrown + jsval :=
  match v with
  | None => inl (ErrorInstance (TypeError_message eng (str "0")))
  | Some JNull => inl (ErrorInstance (TypeError_null_message eng (str "0")))
  | Some (JObj ms) => inr (lookup (str "0") ms)
  | Some (JArr l) => inr (match l with [] => None | x :: _ => Some x end)
  | Some (JStr s) => inr (match s with [] => None | c :: _ => Some (JStr [c]) end)
  | Some _ => inr None
  end.

(** ** [Array.prototype.join] *)

Fixpoint concat_sep (sep : jsstring) (l : list jsstring) : jsstring :=
  match l with
  | [] => []
  | [x] => x
  | x :: l' => x ++ sep ++ concat_sep sep l'
  end.

(** An element that [join] cannot turn into text: an object with a
    [toString] member of its own, which no JSON value makes callable, so
    that neither [toString] nor the inherited [valueOf] yields a
    primitive; or an array that holds such an element. *)
Fixpoint no_primitive (v : json) : bool :=
  match v with
  | JObj ms => match lookup (str "toString") ms with Some _ => true | None => false end
  | JArr l => existsb no_primitive l
  | _ => false
  end.

(** The text of an array element inside [join], for an element that has
    one: [null] gives the empty string, a nested array is joined with a
    comma, an object is written by the inherited [toString]. *)
Fixpoint join_text (eng : Engine) (v : json) : jsstring :=
  match v with
  | JNull => []
  | JBool true => str "true"
  | JBool false => str "false"
  | JNumber x => Number_toString eng x
  | JStr s => s
  | JArr l => concat_sep (str ",") (map (join_text eng) l)
  | JObj _ => str "[object Object]"
  end.

(** [l.join(sep)] throws a [TypeError] when an element has no text ... *)
Definition join_throws (eng : Engine) (l : list json) : option thrown :=
  if existsb no_primitive l
  then Some (ErrorInstance (NoPrimitive_message eng))
  else None.

(** ... and otherwise yields the texts of the elements with [sep] between
    them. *)
Definition join (eng : Engine) (l : list json) (sep : jsstring) : jsstring :=
  concat_sep sep (map (join_text eng) l).

(** ** [JSON.parse] *)

Inductive token : Type :=
| TLBrace | TRBrace | TLBracket | TRBracket | TColon | TComma
| TString (s : jsstring)
| TNumber (m e : Z)
| TTrue | TFalse | TNull.

Definition is_ws (c : N) : bool :=
  N.eqb c 32 || N.eqb c 9 || N.eqb c 10 || N.eqb c 13.

Definition is_digit (c : N) : bool := N.leb 48 c && N.leb c 57.

(** Characters of [true], [false], [null] and of number literals. *)
Definition is_word_char (c : N) : bool :=
  is_digit c || (N.leb 97 c && N.leb c 122) || (N.leb 65 c && N.leb c 90)
  || N.eqb c 45 || N.eqb c 43 || N.eqb c 46.

Definition punct (c : N) : option token :=
  if N.eqb c 123 then Some TLBrace
  else if N.eqb c 125 then Some TRBrace
  else if N.eqb c 91 then Some TLBracket
  else if N.eqb c 93 then Some TRBracket
  else if N.eqb c 58 then Some TColon
  else if N.eqb c 44 then Some TComma
  else None.

Fixpoint span_digits (cs : jsstring) : jsstring * jsstring :=
  match cs with
  | c :: cs' =>
      if is_digit c
      then let (ds, r) := span_digits cs' in (c :: ds, r)
      else ([], cs)
  | [] => ([], [])
  end.

Definition digits_value (ds : jsstring) : Z :=
  fold_left (fun acc c => (10 * acc + (Z.of_N c - 48))%Z) ds 0%Z.

(** [int]: a single [0], or digits that do not start with [0]. *)
Definition int_ok (ds : jsstring) : bool :=
  match ds with
  | [] => false
  | [_] => true
  | c :: _ => negb (N.eqb c 48)
  end.

(** The exponent part, after the fraction: nothing, or [e]/[E], a sign if
    any, and at least one digit up to the end of the literal. *)
Definition exponent (cs : jsstring) : option Z :=
  match cs with
  | [] => Some 0%Z
  | c :: r =>
      if N.eqb c 101 || N.eqb c 69 then
        let '(neg, r') :=
          match r with
          | s :: r1 =>
              if N.eqb s 45 then (true, r1)
              else if N.eqb s 43 then (false, r1) else (false, r)
          | [] => (false, r)
          end in
        match span_digits r' with
        | ([], _) => None
        | (es, []) =>
            Some (if neg then (- digits_value es)%Z else digits_value es)
        | _ => None
        end
      else None
  end.

(** number = [-]? int frac? exp? *)
Definition number (cs : jsstring) : option token :=
  let '(neg, r0) :=
    match cs with
    | c :: r => if N.eqb c 45 then (true, r) else (false, cs)
    | [] => (false, cs)
    end in
  let (ds, r1) := span_digits r0 in
  if int_ok ds then
    let '(fs, r2, frac_ok) :=
      match r1 with
      | c :: r =>
          if N.eqb c 46
          then let (fs, r2) := span_digits r in
               (fs, r2, match fs with [] => false | _ => true end)
          else ([], r1, true)
      | [] => ([], r1, true)
      end in
    if frac_ok then
      match exponent r2 with
      | Some x =>
          let m := digits_value (ds ++ fs) in
          Some (TNumber (if neg then (- m)%Z else m)
                        (x - Z.of_nat (length fs))%Z)
      | None => None
      end
    else None
  else None.

Definition word_token (w : jsstring) : option token :=
  if streq w (str "true") then Some TTrue
  else if streq w (str "false") then Some TFalse
  else if streq w (str "null") then Some TNull
  else number w.

Definition hex_digit (c : N) : option N :=
  if is_digit c then Some (c - 48)%N
  else if N.leb 97 c && N.leb c 102 then Some (c - 87)%N
  else if N.leb 65 c && N.leb c 70 then Some (c - 55)%N
  else None.

Definition escape_char (c : N) : option N :=
  if N.eqb c 34 then Some 34%N
  else if N.eqb c 92 then Some 92%N
  else if N.eqb c 47 then Some 47%N
  else if N.eqb c 98 then Some 8%N
  else if N.eqb c 102 then Some 12%N
  else if N.eqb c 110 then Some 10%N
  else if N.eqb c 114 then Some 13%N
  else if N.eqb c 116 then Some 9%N
  else None.

(** The scanner reads one code unit at a time. *)
Inductive lex_state : Type :=
| LIdle
| LWord (acc : jsstring)
| LString (acc : jsstring)
| LEscape (acc : jsstring)
| LUnicode (acc : jsstring) (hex : list N).

Definition lex_idle (c : N) : option (list token * lex_state) :=
  if is_ws c then Some ([], LIdle)
  else match punct c with
       | Some t => Some ([t], LIdle)
       | None =>
           if N.eqb c 34 then Some ([], LString [])
           else if is_word_char c then Some ([], LWord [c])
           else None
       end.

Definition lex_step (st : lex_state) (c : N)
  : option (list token * lex_state) :=
  match st with
  | LIdle => lex_idle c
  | LWord acc =>
      if is_word_char c then Some ([], LWord (c :: acc))
      else match word_token (rev acc), lex_idle c with
           | Some t, Some (ts, st') => Some (t :: ts, st')
           | _, _ => None
           end
  | LString acc =>
      if N.eqb c 34 then Some ([TString (rev acc)], LIdle)
      else if N.eqb c 92 then Some ([], LEscape acc)
      else if N.ltb c 32 then None
      else Some ([], LString (c :: acc))
  | LEscape acc =>
      match escape_char c with
      | Some d => Some ([], LString (d :: acc))
      | None => if N.eqb c 117 then Some ([], LUnicode acc []) else None
      end
  | LUnicode acc hex =>
      match hex_digit c with
      | Some d =>
          let hex' := hex ++ [d] in
          if Nat.eqb (length hex') 4
          then Some ([], LString (fold_left (fun a h => (16 * a + h)%N) hex' 0%N :: acc))
          else Some ([], LUnicode acc hex')
      | None => None
      end
  end.

Fixpoint lex (st : lex_state) (cs : jsstring) : option (list token) :=
  match cs with
  | [] =>
      match st with
      | LIdle => Some []
      | LWord acc => option_map (fun t => [t]) (word_token (rev acc))
      | _ => None
      end
  | c :: cs' =>
      match lex_step st c with
      | Some (ts, st') => option_map (app ts) (lex st' cs')
      | None => None
      end
  end.

(** The key of an array index: the decimal text, without a leading zero,
    of a number up to 2^32 - 2. *)
Definition array_index (k : jsstring) : option N :=
  if forallb is_digit k && int_ok k then
    let n := Z.to_N (digits_value k) in
    if N.leb n 4294967294 then Some n else None
  else None.

(** A new index key goes before the first greater index key and before
    the other keys. *)
Fixpoint put_index (n : N) (k : jsstring) (v : json)
         (ms : list (jsstring * json)) : list (jsstring * json) :=
  match ms with
  | [] => [(k, v)]
  | (k', v') :: ms' =>
      match array_index k' with
      | Some n' =>
          if N.ltb n n' then (k, v) :: ms else (k', v') :: put_index n k v ms'
      | None => (k, v) :: ms
      end
  end.

(** The value of a key that is there is replaced where it stands. *)
Fixpoint replace (k : jsstring) (v : json) (ms : list (jsstring * json))
  : option (list (jsstring * json)) :=
  match ms with
  | [] => None
  | (k', v') :: ms' =>
      if streq k k' then Some ((k', v) :: ms')
      else option_map (cons (k', v')) (replace k v ms')
  end.

(** One member of the text becomes a property of the object: index keys
    are enumerated first, in ascending order, then the other keys in the
    order in which they were first written. *)
Definition define (ms : list (jsstring * json)) (member : jsstring * json)
  : list (jsstring * json) :=
  let (k, v) := member in
  match replace k v ms with
  | Some ms' => ms'
  | None =>
      match array_index k with
      | Some n => put_index n k v ms
      | None => ms ++ [(k, v)]
      end
  end.

(** The object that the members of a text, in their order, make. *)
Definition object_of (members : list (jsstring * json)) : json :=
  JObj (fold_left define members []).

(** The parser reads one token at a time and keeps the arrays and objects
    still open on a stack. *)
Inductive frame : Type :=
| FArr (done : list json)
| FObj (done : list (jsstring * json)) (key : jsstring).

Inductive parse_state : Type :=
| PValue (stk : list frame)
| PArrFirst (stk : list frame)
| PArrNext (done : list json) (stk : list frame)
| PObjFirst (stk : list frame)
| PObjKey (done : list (jsstring * json)) (stk : list frame)
| PColon (done : list (jsstring * json)) (key : jsstring) (stk : list frame)
| PObjNext (done : list (jsstring * json)) (stk : list frame)
| PDone (v : json).

(** A value is complete: it goes to the innermost open array or object. *)
Definition complete (v : json) (stk : list frame) : parse_state :=
  match stk with
  | [] => PDone v
  | FArr done :: stk' => PArrNext (v :: done) stk'
  | FObj done key :: stk' => PObjNext ((key, v) :: done) stk'
  end.

Definition parse_value (t : token) (stk : list frame) : option parse_state :=
  match t with
  | TLBrace => Some (PObjFirst stk)
  | TLBracket => Some (PArrFirst stk)
  | TString s => Some (complete (JStr s) stk)
  | TNumber m e => Some (complete (JNum m e) stk)
  | TTrue => Some (complete (JBool true) stk)
  | TFalse => Some (complete (JBool false) stk)
  | TNull => Some (complete JNull stk)
  | _ => None
  end.

Definition parse_step (st : parse_state) (t : token) : option parse_state :=
  match st, t with
  | PValue stk, _ => parse_value t stk
  | PArrFirst stk, TRBracket => Some (complete (JArr []) stk)
  | PArrFirst stk, _ => parse_value t (FArr [] :: stk)
  | PArrNext done stk, TComma => Some (PValue (FArr done :: stk))
  | PArrNext done stk, TRBracket => Some (complete (JArr (rev done)) stk)
  | PObjFirst stk, TRBrace => Some (complete (object_of []) stk)
  | PObjFirst stk, TString k => Some (PColon [] k stk)
  | PObjKey done stk, TString k => Some (PColon done k stk)
  | PColon done k stk, TColon => Some (PValue (FObj done k :: stk))
  | PObjNext done stk, TComma => Some (PObjKey done stk)
  | PObjNext done stk, TRBrace => Some (complete (object_of (rev done)) stk)
  | _, _ => None
  end.

Fixpoint parse_tokens (st : parse_state) (ts : list token) : option json :=
  match ts with
  | [] => match st with PDone v => Some v | _ => None end
  | t :: ts' =>
      match parse_step st t with
      | Some st' => parse_tokens st' ts'
      | None => None
      end
  end.

(** [JSON.parse(text)]: [None] when it throws a [SyntaxError]. *)
Definition JSON_parse (text : jsstring) : option json :=
  match lex LIdle text with
  | Some ts => parse_tokens (PValue []) ts
  | None => None
  end.

(** [JSON.stringify(v)], as the value that the written text denotes: a
    number that is not finite is written [null], a zero is written [0],
    everything else is written as it is. *)
Fixpoint JSON_stringify (v : json) : json :=
  match v with
  | JNumber x =>
      match x with
      | S754_finite _ _ _ => v
      | S754_zero _ => JNumber (S754_zero false)
      | _ => JNull
      end
  | JArr l => JArr (map JSON_stringify l)
  | JObj ms => JObj (map (fun member => (fst member, JSON_stringify (snd member))) ms)
  | _ => v
  end.

(** A value all of whose numbers are finite, or the zero. *)
Fixpoint finite_numbers (v : json) : bool :=
  match v with
  | JNumber x =>
      match x with
      | S754_finite _ _ _ | S754_zero false => true
      | _ => false
      end
  | JArr l => forallb finite_numbers l
  | JObj ms => forallb (fun member => finite_numbers (snd member)) ms
  | _ => true
  end.

(** The stack of a parse whose outermost value is an object: its bottom
    frame is an object frame. *)
Fixpoint bottom_obj (stk : list frame) : bool :=
  match stk with
  | [] => false
  | [FObj _ _] => true
  | [FArr _] => false
  | _ :: stk' => bottom_obj stk'
  end.

(** A state of a parse whose outermost value is an object. *)
Definition object_rooted (st : parse_state) : Prop :=
  match st with
  | PValue stk | PArrFirst stk | PArrNext _ stk => bottom_obj stk = true
  | PObjFirst stk | PObjKey _ stk | PColon _ _ stk | PObjNext _ stk =>
      stk = [] \/ bottom_obj stk = true
  | PDone v => exists ms, v = JObj ms
  end.

End Js.

Import Js.

(* ================================================================= *)
(** * supabase/functions/analyze-symptoms/index.ts *)
(* ================================================================= *)

Module AnalyzeSymptoms.

(** The incoming request: its method and the text of its body. *)
Record Request : Type := {
  method : jsstring;
  req_text : jsstring
}.

(** The [Response] that [fetch] resolves with. *)
Record UpstreamResponse : Type := {
  up_status : N;
  up_text : jsstring
}.

(** [response.ok]: a status from 200 to 299. *)
Definition ok (r : UpstreamResponse) : bool :=
  N.leb 200 (up_status r) && N.leb (up_status r) 299.

(** What the function finds around it: the environment variable, and what
    the gateway call settles with (a rejection or a response). *)
Record World : Type := {
  LOVABLE_API_KEY : option jsstring;
  upstream : thrown + UpstreamResponse
}.

(** The body of a response of the function: [null], or a JSON text, kept
    as the value [v] that it denotes. *)
Inductive body : Type :=
| NoBody
| JsonBody (v : json).

Record Response : Type := {
  status : N;
  headers : list (jsstring * jsstring);
  payload : body
}.

(** Console lines keep their label; [Fetch] is the call to the gateway. *)
Inductive event : Type :=
| ConsoleLog (label : jsstring)
| ConsoleError (label : jsstring)
| Fetch (url authorization model system user : jsstring).

(** A computation inside the handler's [try]: it logs and calls out, and
    ends with a value, with an early [return] or with a [throw]. *)
Inductive exit : Type :=
| Return (r : Response)
| Throw (t : thrown).

Definition M (A : Type) : Type := list event -> list event * (exit + A).

Definition ret {A} (a : A) : M A := fun tr => (tr, inr a).

Definition bind {A B} (m : M A) (k : A -> M B) : M B :=
  fun tr =>
    match m tr with
    | (tr', inr a) => k a tr'
    | (tr', inl e) => (tr', inl e)
    end.

Definition emit (e : event) : M unit := fun tr => (tr ++ [e], inr tt).
Definition throw {A} (t : thrown) : M A := fun tr => (tr, inl (Throw t)).
Definition return_ {A} (r : Response) : M A := fun tr => (tr, inl (Return r)).

Definition lift {A} (x : thrown + A) : M A :=
  match x with
  | inl t => throw t
  | inr a => ret a
  end.

(** [try { m } catch (e) { h e }]: an early [return] passes through. *)
Definition try_catch {A} (m : M A) (h : thrown -> M A) : M A :=
  fun tr =>
    match m tr with
    | (tr', inl (Throw t)) => h t tr'
    | r => r
    end.

Declare Scope handler_scope.
Delimit Scope handler_scope with handler.
Notation "x <- m ;; k" := (bind m (fun x => k))
  (at level 100, m at next level, right associativity) : handler_scope.
Notation "m ;;; k" := (bind m (fun _ => k))
  (at level 100, right associativity) : handler_scope.

Definition corsHeaders : list (jsstring * jsstring) :=
  [ (str "Access-Control-Allow-Origin", str "*");
    (str "Access-Control-Allow-Headers",
     str "authorization, x-client-info, apikey, content-type") ].

Definition jsonHeaders : list (jsstring * jsstring) :=
  corsHeaders ++ [ (str "Content-Type", str "application/json") ].

Definition systemPrompt : jsstring :=
  txt "You are a medical AI assistant specialized in symptom analysis. 
Analyze the provided symptoms and provide risk assessments for potential conditions.

IMPORTANT: You are NOT providing medical diagnoses. You are providing educational risk assessments only.
Always include a disclaimer that users should consult healthcare professionals.

Based on the symptoms, provide:
1. Top 3 possible conditions with probability scores (0-100)
2. Overall risk level (low, medium, high)
3. Brief explanation for each condition
4. Recommended next steps

Return your response in JSON format with this structure:
{
  'conditions': [
    {'name': 'condition name', 'probability': 75, 'explanation': 'brief explanation'}
  ],
  'riskLevel': 'medium',
  'recommendations': ['recommendation 1', 'recommendation 2'],
  'disclaimer': 'This is not a medical diagnosis...'
}".

(** The decimal text of a status inside a template string. *)
Definition decimal (n : N) : jsstring := str (NilZero.string_of_uint (N.to_uint n)).

(** [JSON.parse] inside the handler: a [SyntaxError] when it fails. *)
Definition parse_or_throw (eng : Engine) (text : jsstring) : M json :=
  match JSON_parse text with
  | Some v => ret v
  | None => throw (ErrorInstance (SyntaxError_message eng text))
  end.

(** [const { symptoms } = ...]: nothing can be taken out of [null]; any
    other value is read like an object. *)
Definition destructure (eng : Engine) (v : json) (k : jsstring) : thrown + jsval :=
  match v with
  | JNull => inl (ErrorInstance (Destructure_message eng k))
  | _ => get eng (Some v) k
  end.

(** [symptoms.join(', ')]: only an array has a [join] to call, and the
    call throws when an element has no text. *)
Definition join_symptoms (eng : Engine) (symptoms : jsval) : M jsstring :=
  match symptoms with
  | Some (JArr l) =>
      match join_throws eng l with
      | Some error => throw error
      | None => ret (join eng l (str ", "))
      end
  | None => throw (ErrorInstance (TypeError_message eng (str "join")))
  | Some JNull => throw (ErrorInstance (TypeError_null_message eng (str "join")))
  | Some _ => throw (ErrorInstance (NotAFunction_message eng (str "symptoms.join")))
  end.

(** The longest prefix that ends with a closing brace. *)
Fixpoint upto_last_close (s : jsstring) : option jsstring :=
  match s with
  | [] => None
  | c :: s' =>
      match upto_last_close s' with
      | Some u => Some (c :: u)
      | None => if N.eqb c 125 then Some [c] else None
      end
  end.

(** [s.match(/\{[\s\S]*\}/)]: the match starts at the first opening brace
    that has a closing brace after it, and the greedy star carries it to
    the last closing brace of the text. *)
Fixpoint regex_match (s : jsstring) : option jsstring :=
  match s with
  | [] => None
  | c :: s' =>
      if N.eqb c 123 then
        match upto_last_close s' with
        | Some u => Some (c :: u)
        | None => regex_match s'
        end
      else regex_match s'
  end.

(** [aiResponse.match(...)]: only a string has a [match] to call. *)
Definition match_json (eng : Engine) (aiResponse : jsval)
  : M (option jsstring) :=
  match aiResponse with
  | Some (JStr s) => ret (regex_match s)
  | None => throw (ErrorInstance (TypeError_message eng (str "match")))
  | Some JNull => throw (ErrorInstance (TypeError_null_message eng (str "match")))
  | Some _ => throw (ErrorInstance (NotAFunction_message eng (str "aiResponse.match")))
  end.

(** The fallback of the [catch] around the parse. *)
Definition fallback : json :=
  JObj
    [ (str "conditions",
       JArr [ JObj [ (str "name", JStr (str "Multiple Symptoms"));
                     (str "probability", JNum 60 0);
                     (str "explanation",
                      JStr (str "Based on the symptoms provided, we recommend consulting a healthcare professional for proper evaluation.")) ] ]);
      (str "riskLevel", JStr (str "medium"));
      (str "recommendations",
       JArr [ JStr (str "Consult a healthcare professional");
              JStr (str "Monitor your symptoms");
              JStr (str "Stay hydrated and rest") ]);
      (str "disclaimer",
       JStr (str "This is not a medical diagnosis. Please consult a healthcare professional for proper evaluation.")) ].

Definition error_body (message : jsstring) : body :=
  JsonBody (JObj [ (str "error", JStr message) ]).

(** Lines 117 to 120: [JSON.stringify(analysis)] in a response without a
    [status], which has status 200. *)
Definition success (analysis : json) : Response :=
  {| status := 200; headers := jsonHeaders;
     payload := JsonBody (JSON_stringify analysis) |}.

Open Scope handler_scope.

(** The inner [try ... catch] (lines 87 to 115). *)
Definition parse_analysis (eng : Engine) (aiResponse : jsval) : M json :=
  try_catch
    (jsonMatch <- match_json eng aiResponse ;;
     match jsonMatch with
     | Some span => parse_or_throw eng span
     | None => throw (ErrorInstance (str "No JSON found in response"))
     end)
    (fun parseError =>
       emit (ConsoleError (str "Failed to parse AI response:")) ;;;
       ret fallback).

(** Lines 14 to 58: read the request, check the key, call the gateway. *)
Definition call_gateway (eng : Engine) (w : World) (req : Request)
  : M UpstreamResponse :=
  parsed <- parse_or_throw eng (req_text req) ;;
  symptoms <- lift (destructure eng parsed (str "symptoms")) ;;
  match LOVABLE_API_KEY w with
  | None | Some [] => throw (ErrorInstance (str "LOVABLE_API_KEY is not configured"))
  | Some key =>
      emit (ConsoleLog (str "Analyzing symptoms:")) ;;;
      joined <- join_symptoms eng symptoms ;;
      emit (Fetch (str "https://ai.gateway.lovable.dev/v1/chat/completions")
                  (str "Bearer " ++ key)
                  (str "google/gemini-2.5-flash")
                  systemPrompt
                  (str "Analyze these symptoms: " ++ joined)) ;;;
      lift (upstream w)
  end.

(** Lines 60 to 79: a response that is not [ok]. *)
Definition check_status (response : UpstreamResponse) : M unit :=
  if negb (ok response) then
    emit (ConsoleError (str "AI gateway error:")) ;;;
    if N.eqb (up_status response) 429 then
      return_ {| status := 429; headers := jsonHeaders;
                 payload := error_body (str "Rate limit exceeded. Please try again later.") |}
    else if N.eqb (up_status response) 402 then
      return_ {| status := 402; headers := jsonHeaders;
                 payload := error_body (str "AI credits exhausted. Please add credits to continue.") |}
    else
      throw (ErrorInstance (str "AI gateway error: " ++ decimal (up_status response)))
  else ret tt.

(** Lines 81 to 84: [data.choices[0].message.content]. *)
Definition read_reply (eng : Engine) (response : UpstreamResponse) : M jsval :=
  data <- parse_or_throw eng (up_text response) ;;
  choices <- lift (get eng (Some data) (str "choices")) ;;
  choice <- lift (get0 eng choices) ;;
  message <- lift (get eng choice (str "message")) ;;
  aiResponse <- lift (get eng message (str "content")) ;;
  emit (ConsoleLog (str "AI response:")) ;;;
  ret aiResponse.

(** Lines 14 to 84: everything up to the model's reply. *)
Definition ai_reply (eng : Engine) (w : World) (req : Request) : M jsval :=
  response <- call_gateway eng w req ;;
  check_status response ;;;
  read_reply eng response.

(** The body of the outer [try] (lines 14 to 120). *)
Definition try_block (eng : Engine) (w : World) (req : Request) : M Response :=
  aiResponse <- ai_reply eng w req ;;
  analysis <- parse_analysis eng aiResponse ;;
  ret (success analysis).

Close Scope handler_scope.

(** [error instanceof Error ? error.message : 'Unknown error occurred'] *)
Definition message_of (error : thrown) : jsstring :=
  match error with
  | ErrorInstance message => message
  | OtherValue => str "Unknown error occurred"
  end.

(** The function given to [serve]: the console lines and gateway calls it
    makes, in order, and the response it answers with. *)
Definition handler (eng : Engine) (w : World) (req : Request)
  : list event * Response :=
  if streq (method req) (str "OPTIONS") then
    ([], {| status := 200; headers := corsHeaders; payload := NoBody |})
  else
    match try_block eng w req [] with
    | (tr, inr r) => (tr, r)
    | (tr, inl (Return r)) => (tr, r)
    | (tr, inl (Throw error)) =>
        (tr ++ [ConsoleError (str "Error in analyze-symptoms:")],
         {| status := 500; headers := jsonHeaders;
            payload := error_body (message_of error) |})
    end.

(** What lines 90 to 95 yield when nothing is thrown there: the parse of
    the matched span of a reply that is a string. *)
Definition extract (aiResponse : jsval) : option json :=
  match aiResponse with
  | Some (JStr s) =>
      match regex_match s with
      | Some span => JSON_parse span
      | None => None
      end
  | _ => None
  end.

(** The handler gets as far as line 84: the request is not a pre-flight and
    the lines up to there leave the console lines and calls [tr] and the
    reply [aiResponse]. *)
Definition obtains_reply (eng : Engine) (w : World) (req : Request)
           (tr : list event) (aiResponse : jsval) : Prop :=
  streq (method req) (str "OPTIONS") = false /\
  ai_reply eng w req [] = (tr, inr aiResponse).

(** The handler gets as far as line 60: the gateway call resolves with
    [response]. *)
Definition gateway_answers (eng : Engine) (w : World) (req : Request)
           (tr : list event) (response : UpstreamResponse) : Prop :=
  streq (method req) (str "OPTIONS") = false /\
  call_gateway eng w req [] = (tr, inr response).

Definition is_fetch (e : event) : bool :=
  match e with
  | Fetch _ _ _ _ _ => true
  | _ => false
  end.

End AnalyzeSymptoms.

(* ================================================================= *)
(** * The tables of the SQL migration *)
(* ================================================================= *)

Module Schema.

Record profile : Type := {
  profile_id : jsstring;
  role : jsstring;
  full_name : option jsstring
}.

(** [created_at] is kept as the instant it denotes; on the wire it is the
    text that [new Date(...)] reads back. *)
Record symptom_entry : Type := {
  se_id : jsstring;
  se_user_id : jsstring;
  se_symptoms : json;
  se_notes : option jsstring;
  se_created_at : Z
}.

Record risk_assessment : Type := {
  ra_id : jsstring;
  ra_symptom_entry_id : jsstring;
  ra_user_id : jsstring;
  ra_predictions : json;
  ra_risk_level : jsstring;
  ra_created_at : Z
}.

Record database : Type := {
  profiles : list profile;
  symptom_entries : list symptom_entry;
  risk_assessments : list risk_assessment
}.

(** [CHECK (risk_level IN ('low', 'medium', 'high'))] *)
Definition risk_level_check (risk_level : jsstring) : bool :=
  streq risk_level (str "low") || streq risk_level (str "medium")
  || streq risk_level (str "high").

(** A value sent for the [TEXT NOT NULL] column [risk_level]: a JSON string
    is stored as its text and checked; [null] is refused, and any other
    value would be stored as its JSON text, which is none of the three
    words. *)
Definition risk_level_accepts (v : jsval) : bool :=
  match v with
  | Some (JStr s) => risk_level_check s
  | _ => false
  end.

(** [EXISTS (SELECT 1 FROM profiles WHERE id = auth.uid() AND role = 'admin')] *)
Definition is_admin (db : database) (uid : jsstring) : bool :=
  existsb (fun p => streq (profile_id p) uid && streq (role p) (str "admin"))
          (profiles db).

(** The two [FOR SELECT] policies of each table, read as the rows they
    name: the rows of the user, and every row for an admin.  The admin
    policy of [profiles] selects from [profiles] itself; a server that
    refuses to evaluate such a policy answers a select with an error and
    no row at all, which is the case [symptomsError], [assessmentsError]
    of the dashboard. *)
Definition can_view (db : database) (uid owner : jsstring) : bool :=
  streq uid owner || is_admin db uid.

(** [ORDER BY created_at DESC] *)
Fixpoint insert_desc {A} (key : A -> Z) (x : A) (l : list A) : list A :=
  match l with
  | [] => [x]
  | y :: l' =>
      if Z.leb (key y) (key x) then x :: l else y :: insert_desc key x l'
  end.

Definition order_desc {A} (key : A -> Z) (l : list A) : list A :=
  fold_right (insert_desc key) [] l.

(** [x] is at least as recent as [y]. *)
Definition not_older {A} (key : A -> Z) (x y : A) : Prop := (key y <= key x)%Z.

(** [from(...).select("*").order("created_at", { ascending: false }).limit(10)]
    as the signed-in user [uid]. *)
Definition recent_symptom_entries (db : database) (uid : jsstring)
  : list symptom_entry :=
  firstn 10 (order_desc se_created_at
               (filter (fun e => can_view db uid (se_user_id e))
                       (symptom_entries db))).

Definition recent_risk_assessments (db : database) (uid : jsstring)
  : list risk_assessment :=
  firstn 10 (order_desc ra_created_at
               (filter (fun a => can_view db uid (ra_user_id a))
                       (risk_assessments db))).

(** [CHECK (role IN ('patient', 'admin'))] *)
Definition role_check (role : jsstring) : bool :=
  streq role (str "patient") || streq role (str "admin").

(** The trigger [on_auth_user_created] with [handle_new_user()]: a profile
    for the new user, with the role patient and the full name of the
    sign-up data, or the empty text when that is NULL.  [id] is the
    primary key: a second profile with the same [id] is refused, and the
    sign-up with it. *)
Definition handle_new_user (db : database) (new_id : jsstring)
           (meta_full_name : option jsstring) : option database :=
  if existsb (fun p => streq (profile_id p) new_id) (profiles db) then None
  else Some {| profiles :=
                 profiles db ++
                 [ {| profile_id := new_id; role := str "patient";
                      full_name := Some (match meta_full_name with
                                         | Some n => n
                                         | None => []
                                         end) |} ];
               symptom_entries := symptom_entries db;
               risk_assessments := risk_assessments db |}.

End Schema.

(* ================================================================= *)
(** * The symptom form: [toggleSymptom], [handleSubmit] *)
(* ================================================================= *)

Module Symptoms.

Record State : Type := {
  selectedSymptoms : list jsstring;
  notes : jsstring;
  loading : bool;
  analysisResult : jsval
}.

(** [useState] initial values; [analysisResult] starts as [null]. *)
Definition initial : State :=
  {| selectedSymptoms := []; notes := []; loading := false;
     analysisResult := Some JNull |}.

Definition includes (l : list jsstring) (s : jsstring) : bool :=
  existsb (streq s) l.

Definition toggleSymptom (symptom : jsstring) (st : State) : State :=
  {| selectedSymptoms :=
       if includes (selectedSymptoms st) symptom
       then filter (fun s => negb (streq s symptom)) (selectedSymptoms st)
       else selectedSymptoms st ++ [symptom];
     notes := notes st; loading := loading st;
     analysisResult := analysisResult st |}.

(** An error object of the client library, with its [message]. *)
Record ClientError : Type := { message : jsstring }.

(** What the calls of one submission answer. *)
Record World : Type := {
  user : option jsstring;
  symptomEntry : ClientError + jsstring;
  analysis : jsval;
  analysisError : option ClientError;
  assessmentError : option ClientError
}.

Inductive event : Type :=
| PreventDefault
| ToastError (text : jsstring)
| ToastSuccess (text : jsstring)
| SetLoading (b : bool)
| Navigate (path : jsstring)
| InsertSymptomEntry (user_id : jsstring) (symptoms : list jsstring)
                     (row_notes : option jsstring)
| Invoke (name : jsstring) (symptoms : list jsstring)
| InsertRiskAssessment (symptom_entry_id user_id : jsstring)
                       (predictions : jsval) (risk_level : jsval)
| ConsoleError (label : jsstring)
| SetAnalysisResult (v : jsval).

(** [analysis.riskLevel], for an [analysis] that is truthy: a member of an
    object, [undefined] on a string, a number, [true] or an array. *)
Definition riskLevel (analysis : jsval) : jsval :=
  match analysis with
  | Some (JObj ms) => lookup (str "riskLevel") ms
  | _ => None
  end.

(** [analysis.riskLevel || 'medium'] *)
Definition risk_level_of (analysis : jsval) : jsval :=
  or_else (riskLevel analysis) (Some (JStr (str "medium"))).

(** [error.message || "Failed to log symptoms"] *)
Definition message_or (e : ClientError) (default : jsstring) : jsstring :=
  match message e with
  | [] => default
  | m => m
  end.

(** After the entry is saved (lines 76 to 105). *)
Definition analyse_and_save (w : World) (st : State) (uid entry_id : jsstring)
  : list event :=
  Invoke (str "analyze-symptoms") (selectedSymptoms st) ::
  match analysisError w with
  | Some _ =>
      [ ConsoleError (str "Analysis error:");
        ToastError (str "Failed to get AI analysis") ]
  | None =>
      if truthy (analysis w) then
        InsertRiskAssessment entry_id uid (analysis w)
                             (risk_level_of (analysis w)) ::
        match assessmentError w with
        | Some _ => [ ConsoleError (str "Assessment error:") ]
        | None => []
        end ++
        [ SetAnalysisResult (analysis w) ]
      else []
  end ++
  [ ToastSuccess (str "Symptoms logged successfully!") ].

(** The [try] and its [catch] (lines 55 to 108). *)
Definition try_catch_block (w : World) (st : State) : list event :=
  match user w with
  | None => [ Navigate (str "/auth") ]
  | Some uid =>
      InsertSymptomEntry uid (selectedSymptoms st)
        (match notes st with [] => None | n => Some n end) ::
      match symptomEntry w with
      | inl symptomError =>
          [ ConsoleError (str "Submit error:");
            ToastError (message_or symptomError (str "Failed to log symptoms")) ]
      | inr entry_id => analyse_and_save w st uid entry_id
      end
  end.

(** What one submission does, in order. *)
Definition handleSubmit (w : World) (st : State) : list event :=
  PreventDefault ::
  match selectedSymptoms st with
  | [] => [ ToastError (str "Please select at least one symptom") ]
  | _ => SetLoading true :: try_catch_block w st ++ [ SetLoading false ]
  end.

(** The state setters among the events. *)
Definition apply (st : State) (e : event) : State :=
  match e with
  | SetLoading b =>
      {| selectedSymptoms := selectedSymptoms st; notes := notes st;
         loading := b; analysisResult := analysisResult st |}
  | SetAnalysisResult v =>
      {| selectedSymptoms := selectedSymptoms st; notes := notes st;
         loading := loading st; analysisResult := v |}
  | _ => st
  end.

Definition after (w : World) (st : State) : State :=
  fold_left apply (handleSubmit w st) st.

Definition is_entry_insert (e : event) : bool :=
  match e with InsertSymptomEntry _ _ _ => true | _ => false end.

Definition is_invoke (e : event) : bool :=
  match e with Invoke _ _ => true | _ => false end.

Definition is_toast_error (e : event) : bool :=
  match e with ToastError _ => true | _ => false end.

Definition is_assessment_insert (e : event) : bool :=
  match e with InsertRiskAssessment _ _ _ _ => true | _ => false end.

(** The events that leave the page: the two inserts and the call of the
    analysis function. *)
Definition is_remote (e : event) : bool :=
  is_entry_insert e || is_invoke e || is_assessment_insert e.

Definition COMMON_SYMPTOMS : list jsstring :=
  [ str "Fever"; str "Cough"; str "Fatigue"; str "Shortness of breath";
    str "Headache"; str "Body aches"; str "Sore throat";
    str "Loss of taste or smell"; str "Nausea"; str "Vomiting";
    str "Diarrhea"; str "Chest pain"; str "Confusion";
    str "Persistent pain"; str "Weight loss" ].

(** The check boxes ticked one after the other. *)
Definition toggles (clicks : list jsstring) (st : State) : State :=
  fold_left (fun s symptom => toggleSymptom symptom s) clicks st.

End Symptoms.

(* ================================================================= *)
(** * src/pages/Dashboard.tsx *)
(* ================================================================= *)

Module Dashboard.

Import Schema.

Record SymptomEntry : Type := {
  id : jsstring;
  symptoms : list json;
  notes : option jsstring;
  created_at : Z
}.

Record State : Type := {
  symptomEntries : list SymptomEntry;
  riskAssessments : list risk_assessment;
  loading : bool
}.

Definition initial : State :=
  {| symptomEntries := []; riskAssessments := []; loading := true |}.

Record ClientError : Type := { message : jsstring }.

(** What [fetchDashboardData] finds: the signed-in user, the tables, and
    for each of the two queries whether the call itself fails. *)
Record World : Type := {
  user : option jsstring;
  db : database;
  symptomsError : option ClientError;
  assessmentsError : option ClientError
}.

Inductive event : Type :=
| Navigate (path : jsstring)
| ToastError (text : jsstring)
| ToastSuccess (text : jsstring)
| Download (filename content : jsstring).

(** [Array.isArray(entry.symptoms) ? entry.symptoms : []] and the other
    three fields. *)
Definition typed (entry : symptom_entry) : SymptomEntry :=
  {| id := se_id entry;
     symptoms := match se_symptoms entry with JArr l => l | _ => [] end;
     notes := se_notes entry;
     created_at := se_created_at entry |}.

Definition message_or (e : ClientError) (default : jsstring) : jsstring :=
  match message e with
  | [] => default
  | m => m
  end.

Definition fetchDashboardData (w : World) (st : State) : list event * State :=
  let finally (s : State) :=
    {| symptomEntries := symptomEntries s;
       riskAssessments := riskAssessments s; loading := false |} in
  match user w with
  | None => ([ Navigate (str "/auth") ], finally st)
  | Some uid =>
      match symptomsError w, assessmentsError w with
      | Some error, _ | None, Some error =>
          ([ ToastError (message_or error (str "Failed to load dashboard data")) ],
           finally st)
      | None, None =>
          ([], finally
                 {| symptomEntries := map typed (recent_symptom_entries (db w) uid);
                    riskAssessments := recent_risk_assessments (db w) uid;
                    loading := loading st |})
      end
  end.

(** [riskAssessments.find(a => a.symptom_entry_id === entry.id)] *)
Definition find_assessment (riskAssessments : list risk_assessment)
           (entry : SymptomEntry) : option risk_assessment :=
  find (fun a => streq (ra_symptom_entry_id a) (id entry)) riskAssessments.

(** [assessment?.risk_level || "N/A"] *)
Definition risk_column (assessment : option risk_assessment) : jsstring :=
  match assessment with
  | Some a => match ra_risk_level a with [] => str "N/A" | r => r end
  | None => str "N/A"
  end.

Definition quoted (s : jsstring) : jsstring := [34%N] ++ s ++ [34%N].

Definition header : jsstring :=
  concat_sep (str ",") [ str "Date"; str "Symptoms"; str "Risk Level"; str "Notes" ].

(** One line of the export. *)
Definition csv_row (eng : Engine) (riskAssessments : list risk_assessment)
           (entry : SymptomEntry) : jsstring :=
  concat_sep (str ",")
    [ toLocaleDateString eng (created_at entry);
      quoted (join eng (symptoms entry) (str ", "));
      risk_column (find_assessment riskAssessments entry);
      quoted (match notes entry with Some n => n | None => [] end) ].

Definition csv_rows (eng : Engine) (st : State) : list jsstring :=
  header :: map (csv_row eng (riskAssessments st)) (symptomEntries st).

Definition csvContent (eng : Engine) (st : State) : jsstring :=
  concat_sep [10%N] (csv_rows eng st).

(** [iso.split('T')[0]] *)
Fixpoint before_T (iso : jsstring) : jsstring :=
  match iso with
  | [] => []
  | c :: r => if N.eqb c 84 then [] else c :: before_T r
  end.

(** [now] is [new Date().toISOString()]. *)
Definition filename (now : jsstring) : jsstring :=
  str "symptom-tracker-" ++ before_T now ++ str ".csv".

(** What building the content throws, if anything: the [join] of the
    first entry that has a symptom without a text. *)
Definition export_throws (eng : Engine) (st : State) : option thrown :=
  match find (fun entry => existsb no_primitive (symptoms entry)) (symptomEntries st) with
  | Some entry => join_throws eng (symptoms entry)
  | None => None
  end.

Definition exportData (eng : Engine) (now : jsstring) (st : State) : list event :=
  match export_throws eng st with
  | Some error => [ ToastError (str "Failed to export data") ]
  | None =>
      [ Download (filename now) (csvContent eng st);
        ToastSuccess (str "Data exported successfully!") ]
  end.

(** The page loads once, when it is mounted. *)
Definition loaded (w : World) : State := snd (fetchDashboardData w initial).

(** The two counters of the page. *)
Definition total_entries (st : State) : nat := length (symptomEntries st).
Definition total_assessments (st : State) : nat := length (riskAssessments st).

(** [getRiskColor] of the dashboard: the level is compared as it is. *)
Definition getRiskColor (level : jsstring) : jsstring :=
  if streq level (str "high") then str "text-destructive"
  else if streq level (str "medium") then str "text-accent"
  else if streq level (str "low") then str "text-secondary"
  else str "text-muted-foreground".

(** The "Latest Risk Level" card: [riskAssessments[0]?.risk_level || "None"]. *)
Definition latest_risk_level (st : State) : jsstring :=
  match riskAssessments st with
  | a :: _ => match ra_risk_level a with [] => str "None" | r => r end
  | [] => str "None"
  end.

(** [assessment.predictions?.conditions?.[0]]: each [?.] stops at [null]
    and [undefined]. *)
Definition topCondition (eng : Engine) (assessment : risk_assessment)
  : thrown + jsval :=
  match ra_predictions assessment with
  | JNull => inr None
  | predictions =>
      match get eng (Some predictions) (str "conditions") with
      | inl t => inl t
      | inr None | inr (Some JNull) => inr None
      | inr conditions => get0 eng conditions
      end
  end.

End Dashboard.

(* ================================================================= *)
(** * The contract of the analysis function, in the words of its description *)
(* ================================================================= *)

Module Contract.

(** [0 <= x <= 100] *)
Definition percent (x : double) : bool :=
  SFleb (to_double 0 0) x && SFleb x (to_double 100 0).

Definition condition_ok (c : json) : bool :=
  match c with
  | JObj ms =>
      match lookup (str "probability") ms with
      | Some (JNumber x) => percent x
      | _ => false
      end
  | _ => false
  end.

(** [riskLevel] is one of low, medium, high; [conditions] has at most 3
    entries, each with a probability from 0 to 100. *)
Definition assessment_ok (v : json) : bool :=
  match v with
  | JObj ms =>
      match lookup (str "riskLevel") ms with
      | Some (JStr r) => Schema.risk_level_check r
      | _ => false
      end
      &&
      match lookup (str "conditions") ms with
      | Some (JArr l) => Nat.leb (length l) 3 && forallb condition_ok l
      | _ => false
      end
  | _ => false
  end.

Definition is_string (v : jsval) : bool :=
  match v with Some (JStr _) => true | _ => false end.

(** The expected shape: [assessment_ok] with named and explained
    conditions, a list of recommendations and a disclaimer, all strings. *)
Definition expected_shape (v : json) : bool :=
  assessment_ok v &&
  match v with
  | JObj ms =>
      match lookup (str "conditions") ms with
      | Some (JArr l) =>
          forallb (fun c => match c with
                            | JObj cs => is_string (lookup (str "name") cs)
                                         && is_string (lookup (str "explanation") cs)
                            | _ => false
                            end) l
      | _ => false
      end
      &&
      match lookup (str "recommendations") ms with
      | Some (JArr l) => forallb (fun r => is_string (Some r)) l
      | _ => false
      end
      && is_string (lookup (str "disclaimer") ms)
  | _ => false
  end.

(** After an opening brace, with [depth] more still open: the text up to
    the closing brace that balances it. *)
Fixpoint balanced_rest (depth : nat) (s : jsstring) : option jsstring :=
  match s with
  | [] => None
  | c :: s' =>
      if N.eqb c 123 then option_map (cons c) (balanced_rest (S depth) s')
      else if N.eqb c 125 then
        match depth with
        | O => Some [c]
        | S d => option_map (cons c) (balanced_rest d s')
        end
      else option_map (cons c) (balanced_rest depth s')
  end.

(** The first balanced [{...}] span of a text. *)
Fixpoint first_balanced_span (s : jsstring) : option jsstring :=
  match s with
  | [] => None
  | c :: s' =>
      if N.eqb c 123 then
        match balanced_rest 0 s' with
        | Some u => Some (c :: u)
        | None => first_balanced_span s'
        end
      else first_balanced_span s'
  end.

End Contract.

(* ================================================================= *)
(** * Sample requests, replies and states *)
(* ================================================================= *)

Module Examples.

Import AnalyzeSymptoms.

Definition sample_engine : Engine :=
  {| Number_toString :=
       fun x => match x with
                | S754_finite s m e =>
                    (if s then str "-" else [])
                    ++ str (NilZero.string_of_uint (N.to_uint (Z.to_N (Z.shiftl (Zpos m) e))))
                | S754_zero _ => str "0"
                | S754_infinity s => (if s then str "-" else []) ++ str "Infinity"
                | S754_nan => str "NaN"
                end;
     TypeError_message :=
       fun k => str "Cannot read properties of undefined (reading '" ++ k ++ str "')";
     TypeError_null_message :=
       fun k => str "Cannot read properties of null (reading '" ++ k ++ str "')";
     NotAFunction_message := fun e => e ++ str " is not a function";
     Destructure_message :=
       fun k => str "Cannot destructure property '" ++ k ++ str "' of 'null' as it is null.";
     NoPrimitive_message := str "Cannot convert object to primitive value";
     SyntaxError_message := fun _ => str "Unexpected end of JSON input";
     toLocaleDateString := fun _ => str "11/2/2026" |}.

Definition post_fever_cough : Request :=
  {| method := str "POST";
     req_text := txt "{'symptoms':['Fever','Cough']}" |}.

Definition preflight : Request :=
  {| method := str "OPTIONS"; req_text := [] |}.

Definition post_empty_body : Request :=
  {| method := str "POST"; req_text := [] |}.

(** A gateway that answers 200 with the chat completion [text]. *)
Definition answering (text : jsstring) : World :=
  {| LOVABLE_API_KEY := Some (str "secret");
     upstream := inr {| up_status := 200; up_text := text |} |}.

(** A gateway that answers with [status] and an empty body. *)
Definition refusing (status : N) : World :=
  {| LOVABLE_API_KEY := Some (str "secret");
     upstream := inr {| up_status := status; up_text := [] |} |}.

Definition no_key : World :=
  {| LOVABLE_API_KEY := None;
     upstream := inr {| up_status := 200; up_text := [] |} |}.

(** The model answers in prose. *)
Definition prose_reply : jsstring := str "I am sorry, I cannot assess this.".

Definition prose_world : World :=
  answering (txt "{'choices':[{'message':{'content':'I am sorry, I cannot assess this.'}}]}").

(** The model answers with an object outside the ranges it was asked for. *)
Definition wild_reply : jsstring :=
  txt "{'conditions':[{'name':'Flu','probability':250,'explanation':'x'}],'riskLevel':'severe','recommendations':[],'disclaimer':'d'}".

Definition wild_analysis : json :=
  JObj [ (str "conditions",
          JArr [ JObj [ (str "name", JStr (str "Flu"));
                        (str "probability", JNum 250 0);
                        (str "explanation", JStr (str "x")) ] ]);
         (str "riskLevel", JStr (str "severe"));
         (str "recommendations", JArr []);
         (str "disclaimer", JStr (str "d")) ].

Definition wild_world : World :=
  answering (txt "{'choices':[{'message':{'content':'{\'conditions\':[{\'name\':\'Flu\',\'probability\':250,\'explanation\':\'x\'}],\'riskLevel\':\'severe\',\'recommendations\':[],\'disclaimer\':\'d\'}'}}]}").

(** The model answers with a well-shaped object between two remarks. *)
Definition good_object : jsstring :=
  txt "{'conditions':[{'name':'Flu','probability':70,'explanation':'x'}],'riskLevel':'low','recommendations':['Rest'],'disclaimer':'d'}".

Definition good_analysis : json :=
  JObj [ (str "conditions",
          JArr [ JObj [ (str "name", JStr (str "Flu"));
                        (str "probability", JNum 70 0);
                        (str "explanation", JStr (str "x")) ] ]);
         (str "riskLevel", JStr (str "low"));
         (str "recommendations", JArr [ JStr (str "Rest") ]);
         (str "disclaimer", JStr (str "d")) ].

Definition framed_reply : jsstring :=
  str "Here it is: " ++ good_object ++ str " Take care.".

Definition framed_world : World :=
  answering (txt "{'choices':[{'message':{'content':'Here it is: {\'conditions\':[{\'name\':\'Flu\',\'probability\':70,\'explanation\':\'x\'}],\'riskLevel\':\'low\',\'recommendations\':[\'Rest\'],\'disclaimer\':\'d\'} Take care.'}}]}").

(** The same object, followed by a remark that has braces of its own. *)
Definition trailing_reply : jsstring :=
  good_object ++ str " Note: {draft}".

Definition trailing_world : World :=
  answering (txt "{'choices':[{'message':{'content':'{\'conditions\':[{\'name\':\'Flu\',\'probability\':70,\'explanation\':\'x\'}],\'riskLevel\':\'low\',\'recommendations\':[\'Rest\'],\'disclaimer\':\'d\'} Note: {draft}'}}]}").

(** Fever and Cough are ticked, no notes. *)
Definition fever_cough : Symptoms.State :=
  {| Symptoms.selectedSymptoms := [str "Fever"; str "Cough"];
     Symptoms.notes := []; Symptoms.loading := false;
     Symptoms.analysisResult := Some JNull |}.

(** Nobody is signed in. *)
Definition signed_out : Symptoms.World :=
  {| Symptoms.user := None;
     Symptoms.symptomEntry := inr (str "entry-1");
     Symptoms.analysis := Some good_analysis;
     Symptoms.analysisError := None;
     Symptoms.assessmentError := None |}.

(** Signed in; the entry is saved, the analysis arrives, and the second
    insert is refused. *)
Definition assessment_refused : Symptoms.World :=
  {| Symptoms.user := Some (str "user-1");
     Symptoms.symptomEntry := inr (str "entry-1");
     Symptoms.analysis := Some good_analysis;
     Symptoms.analysisError := None;
     Symptoms.assessmentError :=
       Some {| Symptoms.message := str "new row violates row-level security policy" |} |}.



(** Signed in; the first insert is refused. *)
Definition entry_refused : Symptoms.World :=
  {| Symptoms.user := Some (str "user-1");
     Symptoms.symptomEntry := inl {| Symptoms.message := str "network error" |};
     Symptoms.analysis := Some good_analysis;
     Symptoms.analysisError := None;
     Symptoms.assessmentError := None |}.

(** Eleven entries of one user, logged at the instants 1 to 11. *)
Definition eleven_entries : Schema.database :=
  {| Schema.profiles :=
       [ {| Schema.profile_id := str "user-1"; Schema.role := str "patient";
            Schema.full_name := None |} ];
     Schema.symptom_entries :=
       map (fun n => {| Schema.se_id := str "entry";
                        Schema.se_user_id := str "user-1";
                        Schema.se_symptoms := JArr [JStr (str "Fever")];
                        Schema.se_notes := None;
                        Schema.se_created_at := Z.of_nat n |})
           (seq 1 11);
     Schema.risk_assessments := [] |}.

Definition long_history : Dashboard.World :=
  {| Dashboard.user := Some (str "user-1");
     Dashboard.db := eleven_entries;
     Dashboard.symptomsError := None;
     Dashboard.assessmentsError := None |}.

(** The key is set, to the empty string. *)
Definition empty_key : World :=
  {| LOVABLE_API_KEY := Some [];
     upstream := inr {| up_status := 200; up_text := [] |} |}.

(** A body whose [symptoms] is a string. *)
Definition post_symptoms_text : Request :=
  {| method := str "POST"; req_text := txt "{'symptoms':'Fever, Cough'}" |}.

(** A body with an empty list of symptoms. *)
Definition post_no_symptoms : Request :=
  {| method := str "POST"; req_text := txt "{'symptoms':[]}" |}.

(** The gateway cannot be reached. *)
Definition unreachable : World :=
  {| LOVABLE_API_KEY := Some (str "secret");
     upstream := inl (ErrorInstance (str "error sending request")) |}.

(** The gateway answers 200 with a page, or with no choice. *)
Definition page_world : World := answering (str "<html>Bad gateway</html>").

Definition no_choice_world : World := answering (txt "{'choices':[]}").

(** Signed in; the entry is saved and the analysis call fails. *)
Definition analysis_failed : Symptoms.World :=
  {| Symptoms.user := Some (str "user-1");
     Symptoms.symptomEntry := inr (str "entry-1");
     Symptoms.analysis := Some JNull;
     Symptoms.analysisError :=
       Some {| Symptoms.message := str "Edge Function returned a non-2xx status code" |};
     Symptoms.assessmentError := None |}.

(** One patient, no rows yet. *)
Definition one_patient : Schema.database :=
  {| Schema.profiles :=
       [ {| Schema.profile_id := str "user-1"; Schema.role := str "patient";
            Schema.full_name := None |} ];
     Schema.symptom_entries := [];
     Schema.risk_assessments := [] |}.

(** Two assessments of one user, the second one more recent. *)
Definition two_assessments : Schema.database :=
  {| Schema.profiles :=
       [ {| Schema.profile_id := str "user-1"; Schema.role := str "patient";
            Schema.full_name := None |} ];
     Schema.symptom_entries := [];
     Schema.risk_assessments :=
       [ {| Schema.ra_id := str "a-1"; Schema.ra_symptom_entry_id := str "e-1";
            Schema.ra_user_id := str "user-1"; Schema.ra_predictions := JNull;
            Schema.ra_risk_level := str "low"; Schema.ra_created_at := 1 |};
         {| Schema.ra_id := str "a-2"; Schema.ra_symptom_entry_id := str "e-2";
            Schema.ra_user_id := str "user-1"; Schema.ra_predictions := JNull;
            Schema.ra_risk_level := str "high"; Schema.ra_created_at := 2 |} ] |}.

Definition two_assessments_world : Dashboard.World :=
  {| Dashboard.user := Some (str "user-1");
     Dashboard.db := two_assessments;
     Dashboard.symptomsError := None;
     Dashboard.assessmentsError := None |}.

(** Two assessments of one entry, the second one more recent. *)
Definition assessed_twice : Schema.database :=
  {| Schema.profiles :=
       [ {| Schema.profile_id := str "user-1"; Schema.role := str "patient";
            Schema.full_name := None |} ];
     Schema.symptom_entries :=
       [ {| Schema.se_id := str "e-1"; Schema.se_user_id := str "user-1";
            Schema.se_symptoms := JArr [JStr (str "Fever")];
            Schema.se_notes := None; Schema.se_created_at := 1 |} ];
     Schema.risk_assessments :=
       [ {| Schema.ra_id := str "a-1"; Schema.ra_symptom_entry_id := str "e-1";
            Schema.ra_user_id := str "user-1"; Schema.ra_predictions := JNull;
            Schema.ra_risk_level := str "low"; Schema.ra_created_at := 1 |};
         {| Schema.ra_id := str "a-2"; Schema.ra_symptom_entry_id := str "e-1";
            Schema.ra_user_id := str "user-1"; Schema.ra_predictions := JNull;
            Schema.ra_risk_level := str "high"; Schema.ra_created_at := 2 |} ] |}.

Definition assessed_twice_world : Dashboard.World :=
  {| Dashboard.user := Some (str "user-1");
     Dashboard.db := assessed_twice;
     Dashboard.symptomsError := None;
     Dashboard.assessmentsError := None |}.

(** A page with one entry and its assessment. *)
Definition one_entry_page : Dashboard.State :=
  {| Dashboard.symptomEntries :=
       [ {| Dashboard.id := str "e-1";
            Dashboard.symptoms := [JStr (str "Fever"); JStr (str "Cough")];
            Dashboard.notes := Some (str "since Monday");
            Dashboard.created_at := 1 |} ];
     Dashboard.riskAssessments :=
       [ {| Schema.ra_id := str "a-1"; Schema.ra_symptom_entry_id := str "e-1";
            Schema.ra_user_id := str "user-1"; Schema.ra_predictions := JNull;
            Schema.ra_risk_level := str "low"; Schema.ra_created_at := 1 |} ];
     Dashboard.loading := false |}.

(** A page with two entries, the first with an assessment, the second
    without. *)
Definition two_entries_page : Dashboard.State :=
  {| Dashboard.symptomEntries :=
       [ {| Dashboard.id := str "e-1";
            Dashboard.symptoms := [JStr (str "Fever"); JStr (str "Cough")];
            Dashboard.notes := Some (str "since Monday");
            Dashboard.created_at := 2 |};
         {| Dashboard.id := str "e-2";
            Dashboard.symptoms := [JStr (str "Headache")];
            Dashboard.notes := None;
            Dashboard.created_at := 1 |} ];
     Dashboard.riskAssessments :=
       [ {| Schema.ra_id := str "a-1"; Schema.ra_symptom_entry_id := str "e-1";
            Schema.ra_user_id := str "user-1"; Schema.ra_predictions := JNull;
            Schema.ra_risk_level := str "low"; Schema.ra_created_at := 2 |} ];
     Dashboard.loading := false |}.

(** A page with one entry whose note closes the quotes, breaks the line
    and goes on like a line of the export. *)
Definition broken_note : jsstring :=
  [34%N; 10%N] ++ str "11/2/2026," ++ [34%N] ++ str "Headache" ++ [34%N]
  ++ str ",N/A," ++ [34%N].

Definition broken_note_page : Dashboard.State :=
  {| Dashboard.symptomEntries :=
       [ {| Dashboard.id := str "e-1";
            Dashboard.symptoms := [JStr (str "Fever")];
            Dashboard.notes := Some broken_note;
            Dashboard.created_at := 2 |} ];
     Dashboard.riskAssessments := [];
     Dashboard.loading := false |}.

(** A page with two entries without notes. *)
Definition plain_page : Dashboard.State :=
  {| Dashboard.symptomEntries :=
       [ {| Dashboard.id := str "e-1";
            Dashboard.symptoms := [JStr (str "Fever")];
            Dashboard.notes := None;
            Dashboard.created_at := 2 |};
         {| Dashboard.id := str "e-2";
            Dashboard.symptoms := [JStr (str "Headache")];
            Dashboard.notes := None;
            Dashboard.created_at := 1 |} ];
     Dashboard.riskAssessments := [];
     Dashboard.loading := false |}.

(** A page with one entry whose stored symptoms hold an object with a
    [toString] member. *)
Definition no_text_page : Dashboard.State :=
  {| Dashboard.symptomEntries :=
       [ {| Dashboard.id := str "e-1";
            Dashboard.symptoms := [JObj [ (str "toString", JNull) ]];
            Dashboard.notes := None;
            Dashboard.created_at := 1 |} ];
     Dashboard.riskAssessments := [];
     Dashboard.loading := false |}.

End Examples.

(* ================================================================= *)
(** * Properties of the JavaScript model *)
(* ================================================================= *)

Section JsFacts.

Lemma streq_eq (a b : jsstring) : streq a b = true <-> a = b.
Proof.
  revert b; induction a as [|x a IH]; intros [|y b]; simpl; split;
    try discriminate; try reflexivity.
  - intros H. apply andb_true_iff in H as [Hx Hab].
    apply N.eqb_eq in Hx. apply IH in Hab. now subst.
  - intros H. injection H as -> ->.
    rewrite N.eqb_refl. simpl. now apply IH.
Qed.

Lemma streq_refl (a : jsstring) : streq a a = true.
Proof. now apply streq_eq. Qed.

Lemma streq_neq (a b : jsstring) : streq a b = false <-> a <> b.
Proof.
  split.
  - intros H E. apply streq_eq in E. congruence.
  - intros H. destruct (streq a b) eqn:E; [|reflexivity].
    apply streq_eq in E. contradiction.
Qed.



(** Number literals are read as the binary64 values they denote: an
    exponent counts in full, a literal beyond the range is an infinity,
    which is written back as [null], and one below it is the zero. *)
Example number_literals :
  JSON_parse (txt "2e2") = Some (JNum 200 0) /\
  JSON_parse (txt "1e5") = Some (JNum 100000 0) /\
  JSON_parse (txt "25E-1") = JSON_parse (txt "2.5") /\
  JSON_parse (txt "0.1") <> JSON_parse (txt "0.10000000000000002") /\
  JSON_parse (txt "0.1") = JSON_parse (txt "0.10000000000000001") /\
  JSON_parse (txt "1e400") = Some (JNumber (S754_infinity false)) /\
  JSON_stringify (JNum 1 400) = JNull /\
  JSON_parse (txt "1e-400") = Some (JNumber (S754_zero false)) /\
  truthy (Some (JNum 1 (-400))) = false.
Proof. vm_compute. repeat split. discriminate. Qed.

(** An object holds each key once, with the value written last at the
    place of the first, and keys that are array indices first. *)
Example repeated_keys :
  JSON_parse (txt "{'a':1,'b':2,'a':3}")
    = Some (JObj [ (str "a", JNum 3 0); (str "b", JNum 2 0) ]) /\
  JSON_parse (txt "{'b':1,'2':2,'1':3}")
    = Some (JObj [ (str "1", JNum 3 0); (str "2", JNum 2 0); (str "b", JNum 1 0) ]).
Proof. vm_compute. repeat split. Qed.

Lemma truthy_defined (v : jsval) : truthy v = true -> exists j, v = Some j.
Proof. destruct v as [j|]; [now exists j | discriminate]. Qed.

End JsFacts.

(* ================================================================= *)
(** * The analysis function *)
(* ================================================================= *)

Section AnalyzeSymptomsFacts.

Import AnalyzeSymptoms.

Variable eng : Engine.

(** Taking a member out of a value that is not [null] is reading it. *)
Lemma destructure_get (parsed : json) (k : jsstring) (v : jsval) :
  get eng (Some parsed) k = inr v -> destructure eng parsed k = inr v.
Proof. destruct parsed; try discriminate; trivial. Qed.

Lemma destructure_not_null (parsed : json) (k : jsstring) :
  parsed <> JNull -> exists v, destructure eng parsed k = inr v.
Proof. destruct parsed; try contradiction; intros _; eexists; reflexivity. Qed.

(** The fallback is written as it is. *)
Lemma stringify_fallback : JSON_stringify fallback = fallback.
Proof. vm_compute. reflexivity. Qed.

(** A value whose numbers are all finite is written as it is. *)
Lemma stringify_finite :
  forall v : json, finite_numbers v = true -> JSON_stringify v = v.
Proof.
  fix IH 1. intros [| b | x | s | l | ms]; simpl; intros H; try reflexivity.
  - destruct x as [[]| | |]; try discriminate; reflexivity.
  - f_equal. induction l as [|a l IHl]; [reflexivity|]. simpl in *.
    apply andb_true_iff in H as [Ha Hl]. rewrite (IH a Ha), (IHl Hl). reflexivity.
  - f_equal. induction ms as [|[k a] ms IHms]; [reflexivity|]. simpl in *.
    apply andb_true_iff in H as [Ha Hl]. rewrite (IH a Ha), (IHms Hl). reflexivity.
Qed.

(** A list of strings is joined without throwing. *)
Lemma join_throws_strings (labels : list jsstring) :
  join_throws eng (map JStr labels) = None.
Proof.
  unfold join_throws.
  replace (existsb no_primitive (map JStr labels)) with false; [reflexivity|].
  induction labels as [|x labels IH]; [reflexivity | exact IH].
Qed.

Lemma join_throws_none (l : list json) :
  existsb no_primitive l = false -> join_throws eng l = None.
Proof. unfold join_throws. now intros ->. Qed.

(** The inner [try ... catch] never throws and never returns early: it
    yields the parsed span, or logs and yields the fallback. *)
Lemma parse_analysis_run (aiResponse : jsval) (tr : list event) :
  parse_analysis eng aiResponse tr =
  match extract aiResponse with
  | Some v => (tr, inr v)
  | None => (tr ++ [ConsoleError (str "Failed to parse AI response:")], inr fallback)
  end.
Proof.
  unfold parse_analysis, try_catch, bind, match_json, extract, parse_or_throw.
  destruct aiResponse as [[ | | | s | | ]|]; try reflexivity.
  unfold ret. destruct (regex_match s) as [span|]; [|reflexivity].
  destruct (JSON_parse span); reflexivity.
Qed.

(** Once the reply is there, the answer is a 200. *)
Lemma handler_after_reply (w : World) (req : Request) tr aiResponse :
  obtains_reply eng w req tr aiResponse ->
  handler eng w req =
  match extract aiResponse with
  | Some v => (tr, success v)
  | None => (tr ++ [ConsoleError (str "Failed to parse AI response:")],
             success fallback)
  end.
Proof.
  intros [Hm Hr]. unfold handler, try_block, bind.
  rewrite Hm, Hr, parse_analysis_run.
  destruct (extract aiResponse); reflexivity.
Qed.

(** No early [return] before the status is looked at, nor after. *)
Lemma call_gateway_exit (w : World) (req : Request) tr tr' (e : exit) :
  call_gateway eng w req tr = (tr', inl e) -> exists t, e = Throw t.
Proof.
  unfold call_gateway, bind, parse_or_throw, lift, join_symptoms, emit, throw, ret.
  destruct (JSON_parse (req_text req)) as [parsed|];
    [|intros H; injection H as <- <-; eauto].
  destruct (destructure eng parsed (str "symptoms")) as [t|symptoms];
    [intros H; injection H as <- <-; eauto|].
  destruct (LOVABLE_API_KEY w) as [[|c key]|];
    try (intros H; injection H as <- <-; eauto).
  destruct symptoms as [[ | | | | l | ]|];
    try (intros H; injection H as <- <-; eauto).
  destruct (join_throws eng l); [intros H; injection H as <- <-; eauto|].
  destruct (upstream w); intros H; [injection H as <- <-; eauto | discriminate].
Qed.

Lemma read_reply_exit (response : UpstreamResponse) tr tr' (e : exit) :
  read_reply eng response tr = (tr', inl e) -> exists t, e = Throw t.
Proof.
  unfold read_reply, bind, parse_or_throw, lift, emit, throw, ret.
  destruct (JSON_parse (up_text response)) as [data|];
    [|intros H; injection H as <- <-; eauto].
  destruct (get eng (Some data) (str "choices")) as [t|choices];
    [intros H; injection H as <- <-; eauto|].
  destruct (get0 eng choices) as [t|choice];
    [intros H; injection H as <- <-; eauto|].
  destruct (get eng choice (str "message")) as [t|message];
    [intros H; injection H as <- <-; eauto|].
  destruct (get eng message (str "content")) as [t|content];
    [intros H; injection H as <- <-; eauto | discriminate].
Qed.

Lemma check_status_return (response : UpstreamResponse) tr tr' r :
  check_status response tr = (tr', inl (Return r)) ->
  status r = 429%N \/ status r = 402%N.
Proof.
  unfold check_status, bind, emit, return_, throw, ret.
  destruct (negb (ok response)); [|discriminate].
  destruct (N.eqb (up_status response) 429).
  - intros H; injection H as <- <-. now left.
  - destruct (N.eqb (up_status response) 402).
    + intros H; injection H as <- <-. now right.
    + discriminate.
Qed.

(** An early [return] of the lines up to the reply is a 429 or a 402. *)
Lemma ai_reply_return (w : World) (req : Request) tr r :
  ai_reply eng w req [] = (tr, inl (Return r)) ->
  status r = 429%N \/ status r = 402%N.
Proof.
  unfold ai_reply, bind.
  destruct (call_gateway eng w req []) as [tr1 [e|response]] eqn:Hc.
  - intros H; injection H as <- ->.
    apply call_gateway_exit in Hc as [t Ht]. discriminate.
  - destruct (check_status response tr1) as [tr2 [e|[]]] eqn:Hs.
    + intros H; injection H as <- ->. eapply check_status_return; eauto.
    + intros H. apply read_reply_exit in H as [t Ht]. discriminate.
Qed.

(** The matched span runs from the first opening brace of the text to its
    last closing brace. *)
Lemma upto_last_close_none (s : jsstring) :
  upto_last_close s = None -> Forall (fun c => c <> 125%N) s.
Proof.
  induction s as [|c s IH]; simpl; [constructor|].
  destruct (upto_last_close s); [discriminate|].
  destruct (N.eqb c 125) eqn:E; [discriminate|].
  intros _. constructor; [now apply N.eqb_neq | now apply IH].
Qed.

Lemma upto_last_close_some (s u : jsstring) :
  upto_last_close s = Some u ->
  exists mid post, u = mid ++ [125%N] /\ s = u ++ post /\
                   Forall (fun c => c <> 125%N) post.
Proof.
  revert u; induction s as [|c s IH]; simpl; [discriminate|].
  intros u. destruct (upto_last_close s) as [u'|] eqn:E.
  - intros H; injection H as <-.
    destruct (IH u' eq_refl) as (mid & post & -> & -> & Hp).
    exists (c :: mid), post. repeat split; auto.
  - destruct (N.eqb c 125) eqn:Ec; [|discriminate].
    intros H; injection H as <-. apply N.eqb_eq in Ec. subst c.
    exists [], s. repeat split. now apply upto_last_close_none.
Qed.

Lemma upto_last_close_app (mid post : jsstring) :
  Forall (fun c => c <> 125%N) post ->
  upto_last_close (mid ++ 125%N :: post) = Some (mid ++ [125%N]).
Proof.
  intros Hp. induction mid as [|c mid IH]; simpl.
  - destruct (upto_last_close post) as [u|] eqn:E; [|reflexivity].
    apply upto_last_close_some in E as (m & p & -> & E & _).
    rewrite E in Hp. apply Forall_app in Hp as [Hp _].
    apply Forall_app in Hp as [_ Hp]. inversion Hp; subst. congruence.
  - now rewrite IH.
Qed.

Lemma regex_match_none (s : jsstring) :
  upto_last_close s = None -> regex_match s = None.
Proof.
  induction s as [|c s IH]; simpl; [reflexivity|].
  destruct (upto_last_close s) eqn:E; [discriminate|].
  intros _. rewrite (IH eq_refl). now destruct (N.eqb c 123).
Qed.

Lemma regex_match_span (s span : jsstring) :
  regex_match s = Some span ->
  exists pre mid post,
    s = pre ++ span ++ post /\ span = 123%N :: mid ++ [125%N] /\
    Forall (fun c => c <> 123%N) pre /\ Forall (fun c => c <> 125%N) post.
Proof.
  induction s as [|c s IH]; simpl; [discriminate|].
  destruct (N.eqb c 123) eqn:Ec.
  - destruct (upto_last_close s) as [u|] eqn:E.
    + intros H; injection H as <-. apply N.eqb_eq in Ec. subst c.
      apply upto_last_close_some in E as (mid & post & -> & -> & Hp).
      exists [], mid, post. repeat split; auto.
    + rewrite (regex_match_none _ E). discriminate.
  - intros H. destruct (IH H) as (pre & mid & post & -> & -> & Hpre & Hpost).
    exists (c :: pre), mid, post. repeat split; auto.
    constructor; [now apply N.eqb_neq | assumption].
Qed.

Lemma regex_match_isolates (pre mid post : jsstring) :
  Forall (fun c => c <> 123%N) pre ->
  Forall (fun c => c <> 125%N) post ->
  regex_match (pre ++ (123%N :: mid ++ [125%N]) ++ post)
  = Some (123%N :: mid ++ [125%N]).
Proof.
  intros Hpre Hpost. induction Hpre as [|c pre Hc Hpre IH]; simpl.
  - rewrite <- app_assoc. simpl. now rewrite upto_last_close_app.
  - apply N.eqb_neq in Hc. rewrite Hc. exact IH.
Qed.

End AnalyzeSymptomsFacts.

Section AnalyzeSymptomsClaims.

Import AnalyzeSymptoms Examples.

(** C1.  When the handler has the model's reply and the extraction of
    lines 90 to 95 yields nothing (the reply is not a string, has no
    [{...}] span, or the span does not parse), the handler logs the failure
    and answers with status 200 and exactly the fallback object: one
    condition named "Multiple Symptoms" at probability 60, riskLevel
    "medium", three recommendations and the disclaimer. *)
Theorem fallback_on_parse_failure
        (eng : Engine) (w : World) (req : Request)
        (tr : list event) (aiResponse : jsval) :
  obtains_reply eng w req tr aiResponse ->
  extract aiResponse = None ->
  handler eng w req =
    (tr ++ [ConsoleError (str "Failed to parse AI response:")],
     {| status := 200; headers := jsonHeaders; payload := JsonBody fallback |})
  /\ exists ms c r1 r2 r3 d,
       fallback = JObj ms /\
       lookup (str "conditions") ms = Some (JArr [JObj c]) /\
       lookup (str "name") c = Some (JStr (str "Multiple Symptoms")) /\
       lookup (str "probability") c = Some (JNum 60 0) /\
       lookup (str "riskLevel") ms = Some (JStr (str "medium")) /\
       lookup (str "recommendations") ms = Some (JArr [JStr r1; JStr r2; JStr r3]) /\
       lookup (str "disclaimer") ms = Some (JStr d).
Proof.
  intros Hr He. split.
  - rewrite (handler_after_reply Hr), He. reflexivity.
  - unfold fallback. do 6 eexists.
    split; [reflexivity|]. vm_compute. repeat split.
Qed.

(** The model answers in prose: no span, so the fallback. *)
Lemma fallback_on_parse_failure_witness :
  handler sample_engine prose_world post_fever_cough =
    (fst (ai_reply sample_engine prose_world post_fever_cough [])
       ++ [ConsoleError (str "Failed to parse AI response:")],
     {| status := 200; headers := jsonHeaders; payload := JsonBody fallback |}).
Proof.
  apply (@fallback_on_parse_failure sample_engine prose_world post_fever_cough
           (fst (ai_reply sample_engine prose_world post_fever_cough []))
           (Some (JStr prose_reply))).
  - split; vm_compute; reflexivity.
  - vm_compute; reflexivity.
Defined.

(** C2, as stated, fails: for the symptoms Fever and Cough and a model
    reply with a probability of 250 and the risk level "severe", the
    handler answers 200 with that very object. *)
Lemma unvalidated_reply_counterexample :
  JSON_parse (req_text post_fever_cough)
    = Some (JObj [ (str "symptoms", JArr [JStr (str "Fever"); JStr (str "Cough")]) ]) /\
  snd (ai_reply sample_engine wild_world post_fever_cough [])
    = inr (Some (JStr wild_reply)) /\
  status (snd (handler sample_engine wild_world post_fever_cough)) = 200%N /\
  payload (snd (handler sample_engine wild_world post_fever_cough))
    = JsonBody wild_analysis /\
  Contract.assessment_ok wild_analysis = false.
Proof. vm_compute. repeat split. Qed.

(** C2, amended.  A response with status 200 is the empty answer to a
    pre-flight, or carries, unchecked, the value parsed from the span of
    the model's reply as [JSON.stringify] writes it back when there is
    one, and the fallback otherwise; the fallback is within the ranges
    (riskLevel medium, one condition at 60), so the body is within the
    ranges only when the model's reply is. *)
Theorem success_body_is_parse_or_fallback
        (eng : Engine) (w : World) (req : Request) :
  status (snd (handler eng w req)) = 200%N ->
  ((streq (method req) (str "OPTIONS") = true /\
    payload (snd (handler eng w req)) = NoBody)
   \/
   exists tr aiResponse,
     obtains_reply eng w req tr aiResponse /\
     (forall v, extract aiResponse = Some v ->
                payload (snd (handler eng w req)) = JsonBody (JSON_stringify v)) /\
     (extract aiResponse = None ->
      payload (snd (handler eng w req)) = JsonBody fallback))
  /\ Contract.assessment_ok fallback = true.
Proof.
  intros Hs. split; [|vm_compute; reflexivity].
  destruct (streq (method req) (str "OPTIONS")) eqn:Hm.
  - left. split; [reflexivity|]. unfold handler. rewrite Hm. reflexivity.
  - right.
    destruct (ai_reply eng w req []) as [tr [[r|t]|aiResponse]] eqn:Hr.
    + exfalso. pose proof (ai_reply_return _ _ _ Hr) as Hret.
      unfold handler, try_block, bind in Hs. rewrite Hm, Hr in Hs.
      simpl snd in Hs. rewrite Hs in Hret. destruct Hret; discriminate.
    + exfalso. unfold handler, try_block, bind in Hs. rewrite Hm, Hr in Hs.
      discriminate.
    + exists tr, aiResponse.
      assert (Ho : obtains_reply eng w req tr aiResponse) by (split; assumption).
      rewrite (handler_after_reply Ho).
      split; [assumption|].
      split; [intros v -> | intros ->]; [reflexivity|].
      cbn [snd success payload]. now rewrite stringify_fallback.
Qed.

(** The framed reply: a 200 that is not a pre-flight answer. *)
Lemma success_body_is_parse_or_fallback_witness :
  ((streq (method post_fever_cough) (str "OPTIONS") = true /\
    payload (snd (handler sample_engine framed_world post_fever_cough)) = NoBody)
   \/
   exists tr aiResponse,
     obtains_reply sample_engine framed_world post_fever_cough tr aiResponse /\
     (forall v, extract aiResponse = Some v ->
                payload (snd (handler sample_engine framed_world post_fever_cough))
                = JsonBody (JSON_stringify v)) /\
     (extract aiResponse = None ->
      payload (snd (handler sample_engine framed_world post_fever_cough))
      = JsonBody fallback))
  /\ Contract.assessment_ok fallback = true.
Proof.
  apply (@success_body_is_parse_or_fallback sample_engine framed_world post_fever_cough).
  vm_compute; reflexivity.
Defined.

(** C3, as stated, fails: the reply holds a well-shaped object followed by
    a remark with braces; its first balanced span is that object, but the
    pattern matches up to the last closing brace, the parse fails, and the
    handler answers with the fallback. *)
Lemma trailing_brace_counterexample :
  snd (ai_reply sample_engine trailing_world post_fever_cough [])
    = inr (Some (JStr trailing_reply)) /\
  Contract.first_balanced_span trailing_reply = Some good_object /\
  JSON_parse good_object = Some good_analysis /\
  Contract.expected_shape good_analysis = true /\
  regex_match trailing_reply = Some trailing_reply /\
  JSON_parse trailing_reply = None /\
  payload (snd (handler sample_engine trailing_world post_fever_cough))
    = JsonBody fallback /\
  fallback <> good_analysis.
Proof. vm_compute. repeat split. discriminate. Qed.

(** C3, amended.  The pattern takes the span from the first opening brace
    of the reply to its last closing brace; when that span parses, the
    handler answers 200 with the parsed value as [JSON.stringify] writes
    it, which is the parsed value itself when all its numbers are finite;
    so a reply made of an object, text without an opening brace before it
    and text without a closing brace after it is answered with that
    object. *)
Theorem greedy_span_is_parsed
        (eng : Engine) (w : World) (req : Request)
        (tr : list event) (s : jsstring) :
  obtains_reply eng w req tr (Some (JStr s)) ->
  (forall span, regex_match s = Some span ->
     exists pre mid post,
       s = pre ++ span ++ post /\ span = 123%N :: mid ++ [125%N] /\
       Forall (fun c => c <> 123%N) pre /\ Forall (fun c => c <> 125%N) post)
  /\
  (forall span v, regex_match s = Some span -> JSON_parse span = Some v ->
     handler eng w req =
       (tr, {| status := 200; headers := jsonHeaders;
               payload := JsonBody (JSON_stringify v) |}) /\
     (finite_numbers v = true ->
      payload (snd (handler eng w req)) = JsonBody v))
  /\
  (forall pre mid post v,
     s = pre ++ (123%N :: mid ++ [125%N]) ++ post ->
     Forall (fun c => c <> 123%N) pre -> Forall (fun c => c <> 125%N) post ->
     JSON_parse (123%N :: mid ++ [125%N]) = Some v ->
     handler eng w req =
       (tr, {| status := 200; headers := jsonHeaders;
               payload := JsonBody (JSON_stringify v) |}) /\
     (finite_numbers v = true ->
      payload (snd (handler eng w req)) = JsonBody v)).
Proof.
  intros Hr.
  assert (Hrun : forall v, extract (Some (JStr s)) = Some v ->
            handler eng w req =
              (tr, {| status := 200; headers := jsonHeaders;
                      payload := JsonBody (JSON_stringify v) |}) /\
            (finite_numbers v = true ->
             payload (snd (handler eng w req)) = JsonBody v)).
  { intros v Hv. rewrite (handler_after_reply Hr), Hv. split; [reflexivity|].
    intros Hf. cbn [snd success payload]. now rewrite (stringify_finite _ Hf). }
  split; [|split].
  - intros span. apply regex_match_span.
  - intros span v Hspan Hv. apply Hrun.
    unfold extract. now rewrite Hspan, Hv.
  - intros pre mid post v -> Hpre Hpost Hv. apply Hrun.
    unfold extract. now rewrite (regex_match_isolates mid Hpre Hpost), Hv.
Qed.

(** The framed reply is answered with the object it frames. *)
Lemma greedy_span_is_parsed_witness :
  handler sample_engine framed_world post_fever_cough =
    (fst (ai_reply sample_engine framed_world post_fever_cough []),
     {| status := 200; headers := jsonHeaders;
        payload := JsonBody (JSON_stringify good_analysis) |}) /\
  (finite_numbers good_analysis = true ->
   payload (snd (handler sample_engine framed_world post_fever_cough))
   = JsonBody good_analysis).
Proof.
  refine (proj1 (proj2 (@greedy_span_is_parsed sample_engine framed_world
            post_fever_cough
            (fst (ai_reply sample_engine framed_world post_fever_cough []))
            framed_reply _)) good_object good_analysis _ _).
  - split; vm_compute; reflexivity.
  - vm_compute; reflexivity.
  - vm_compute; reflexivity.
Defined.

(** C4.  When the gateway call resolves with a status outside 200..299:
    429 gives status 429 with the rate-limit message, 402 gives status 402
    with the credits message, and any other such status gives status 500
    with a JSON error body naming the status. *)
Theorem upstream_status_mapping
        (eng : Engine) (w : World) (req : Request)
        (tr : list event) (response : UpstreamResponse) :
  gateway_answers eng w req tr response ->
  (up_status response = 429%N ->
   handler eng w req =
     (tr ++ [ConsoleError (str "AI gateway error:")],
      {| status := 429; headers := jsonHeaders;
         payload := JsonBody (JObj [ (str "error",
                     JStr (str "Rate limit exceeded. Please try again later.")) ]) |}))
  /\
  (up_status response = 402%N ->
   handler eng w req =
     (tr ++ [ConsoleError (str "AI gateway error:")],
      {| status := 402; headers := jsonHeaders;
         payload := JsonBody (JObj [ (str "error",
                     JStr (str "AI credits exhausted. Please add credits to continue.")) ]) |}))
  /\
  (ok response = false ->
   up_status response <> 429%N -> up_status response <> 402%N ->
   handler eng w req =
     ((tr ++ [ConsoleError (str "AI gateway error:")])
         ++ [ConsoleError (str "Error in analyze-symptoms:")],
      {| status := 500; headers := jsonHeaders;
         payload := JsonBody (JObj [ (str "error",
                     JStr (str "AI gateway error: " ++ decimal (up_status response))) ]) |})).
Proof.
  intros [Hm Hc].
  assert (Hrun : handler eng w req =
                 match check_status response tr with
                 | (tr1, inl (Return r)) => (tr1, r)
                 | (tr1, inl (Throw error)) =>
                     (tr1 ++ [ConsoleError (str "Error in analyze-symptoms:")],
                      {| status := 500; headers := jsonHeaders;
                         payload := error_body (message_of error) |})
                 | (tr1, inr _) =>
                     match try_block eng w req [] with
                     | (tr2, inr r) | (tr2, inl (Return r)) => (tr2, r)
                     | (tr2, inl (Throw error)) =>
                         (tr2 ++ [ConsoleError (str "Error in analyze-symptoms:")],
                          {| status := 500; headers := jsonHeaders;
                             payload := error_body (message_of error) |})
                     end
                 end).
  { unfold handler. rewrite Hm. unfold try_block, ai_reply, bind. rewrite Hc.
    destruct (check_status response tr) as [tr1 [[r|t]|[]]]; reflexivity. }
  rewrite Hrun. unfold check_status, bind, emit, return_, throw.
  repeat split.
  - intros H. unfold ok. rewrite H. reflexivity.
  - intros H. unfold ok. rewrite H. reflexivity.
  - intros Hok H429 H402. rewrite Hok.
    apply N.eqb_neq in H429, H402. rewrite H429, H402. reflexivity.
Qed.

(** A gateway that answers 429. *)
Lemma upstream_status_mapping_witness :
  handler sample_engine (refusing 429) post_fever_cough =
    (fst (call_gateway sample_engine (refusing 429) post_fever_cough [])
       ++ [ConsoleError (str "AI gateway error:")],
     {| status := 429; headers := jsonHeaders;
        payload := JsonBody (JObj [ (str "error",
                    JStr (str "Rate limit exceeded. Please try again later.")) ]) |}).
Proof.
  refine (proj1 (@upstream_status_mapping sample_engine (refusing 429)
            post_fever_cough
            (fst (call_gateway sample_engine (refusing 429) post_fever_cough []))
            {| up_status := 429; up_text := [] |} _) _).
  - split; vm_compute; reflexivity.
  - reflexivity.
Defined.

End AnalyzeSymptomsClaims.

Section MissingKey.

Import AnalyzeSymptoms Examples.

Lemma call_gateway_no_key (eng : Engine) (w : World) (req : Request) :
  LOVABLE_API_KEY w = None ->
  exists t,
    call_gateway eng w req [] = ([], inl (Throw t)) /\
    (forall parsed, JSON_parse (req_text req) = Some parsed -> parsed <> JNull ->
       t = ErrorInstance (str "LOVABLE_API_KEY is not configured")).
Proof.
  intros Hk. unfold call_gateway, bind, parse_or_throw, lift, throw, ret.
  rewrite Hk.
  destruct (JSON_parse (req_text req)) as [parsed|].
  - destruct (destructure eng parsed (str "symptoms")) as [t|symptoms] eqn:Hg.
    + exists t. split; [reflexivity|].
      intros p Hp Hn. injection Hp as <-.
      destruct parsed; try discriminate. contradiction.
    + eexists. split; [reflexivity|]. reflexivity.
  - eexists. split; [reflexivity|]. discriminate.
Qed.

(** C6, as stated, fails: without the key a pre-flight is answered with
    200, and a POST with an empty body is answered with status 500 and the
    message of the failed body parse, not the configuration message. *)
Lemma missing_key_counterexample :
  LOVABLE_API_KEY no_key = None /\
  snd (handler sample_engine no_key preflight)
    = {| status := 200; headers := corsHeaders; payload := NoBody |} /\
  snd (handler sample_engine no_key post_empty_body)
    = {| status := 500; headers := jsonHeaders;
         payload := JsonBody (JObj [ (str "error",
                     JStr (str "Unexpected end of JSON input")) ]) |} /\
  str "Unexpected end of JSON input" <> str "LOVABLE_API_KEY is not configured".
Proof. vm_compute. repeat split. discriminate. Qed.

(** C6, amended.  Without the key no gateway call is made, whatever the
    request; and a request that is not a pre-flight and whose body parses
    to a value other than [null] is answered with status 500 and the JSON
    error body that carries "LOVABLE_API_KEY is not configured". *)
Theorem missing_key_is_configuration_error
        (eng : Engine) (w : World) (req : Request) :
  LOVABLE_API_KEY w = None ->
  existsb is_fetch (fst (handler eng w req)) = false
  /\
  (forall parsed,
     streq (method req) (str "OPTIONS") = false ->
     JSON_parse (req_text req) = Some parsed -> parsed <> JNull ->
     handler eng w req =
       ([ConsoleError (str "Error in analyze-symptoms:")],
        {| status := 500; headers := jsonHeaders;
           payload := JsonBody (JObj [ (str "error",
                       JStr (str "LOVABLE_API_KEY is not configured")) ]) |})).
Proof.
  intros Hk. destruct (@call_gateway_no_key eng w req Hk) as (t & Hc & Ht).
  assert (Hrun : streq (method req) (str "OPTIONS") = false ->
                 handler eng w req =
                 ([ConsoleError (str "Error in analyze-symptoms:")],
                  {| status := 500; headers := jsonHeaders;
                     payload := error_body (message_of t) |})).
  { intros Hm. unfold handler, try_block, ai_reply, bind.
    rewrite Hm, Hc. reflexivity. }
  split.
  - destruct (streq (method req) (str "OPTIONS")) eqn:Hm.
    + unfold handler. rewrite Hm. reflexivity.
    + rewrite (Hrun eq_refl). reflexivity.
  - intros parsed Hm Hp Hn. rewrite (Hrun Hm), (Ht parsed Hp Hn). reflexivity.
Qed.

(** The Fever and Cough request without the key. *)
Lemma missing_key_is_configuration_error_witness :
  existsb is_fetch (fst (handler sample_engine no_key post_fever_cough)) = false
  /\
  handler sample_engine no_key post_fever_cough =
    ([ConsoleError (str "Error in analyze-symptoms:")],
     {| status := 500; headers := jsonHeaders;
        payload := JsonBody (JObj [ (str "error",
                    JStr (str "LOVABLE_API_KEY is not configured")) ]) |}).
Proof.
  split.
  - exact (proj1 (@missing_key_is_configuration_error
                    sample_engine no_key post_fever_cough eq_refl)).
  - refine (proj2 (@missing_key_is_configuration_error
                     sample_engine no_key post_fever_cough eq_refl)
                  (JObj [ (str "symptoms",
                           JArr [JStr (str "Fever"); JStr (str "Cough")]) ])
                  _ _ _).
    + vm_compute; reflexivity.
    + vm_compute; reflexivity.
    + discriminate.
Defined.

End MissingKey.

(* ================================================================= *)
(** * The symptom form *)
(* ================================================================= *)

Section SymptomsClaims.

Import Symptoms Examples.

(** Ticking a label that is not selected selects it, so the selection is
    not empty afterwards; ticking it again removes it. *)
Lemma toggleSymptom_selects (symptom : jsstring) (st : State) :
  includes (selectedSymptoms st) symptom = false ->
  selectedSymptoms (toggleSymptom symptom st) = selectedSymptoms st ++ [symptom]
  /\ selectedSymptoms (toggleSymptom symptom st) <> []
  /\ selectedSymptoms (toggleSymptom symptom (toggleSymptom symptom st))
     = selectedSymptoms st.
Proof.
  intros Hn.
  assert (E : selectedSymptoms (toggleSymptom symptom st)
              = selectedSymptoms st ++ [symptom]).
  { unfold toggleSymptom. cbn [selectedSymptoms]. now rewrite Hn. }
  split; [exact E|]. split.
  { rewrite E. now destruct (selectedSymptoms st). }
  unfold toggleSymptom at 1. cbn [selectedSymptoms]. rewrite E.
  unfold includes in *. rewrite existsb_app. cbn [existsb].
  rewrite streq_refl, orb_true_r.
  rewrite filter_app. cbn [filter]. rewrite streq_refl. cbn [negb].
  rewrite app_nil_r.
  clear E. revert Hn. generalize (selectedSymptoms st) as l.
  induction l as [|x l IH]; intros Hn; [reflexivity|].
  cbn [existsb] in Hn. apply orb_false_iff in Hn as [Hx Hl]. cbn [filter].
  assert (Hx' : streq x symptom = false).
  { apply streq_neq. apply streq_neq in Hx. congruence. }
  rewrite Hx'. cbn [negb]. now rewrite (IH Hl).
Qed.

(** The events of a submission by a signed-in user with something ticked. *)
Lemma handleSubmit_signed_in (w : World) (st : State) (uid : jsstring) :
  selectedSymptoms st <> [] -> user w = Some uid ->
  handleSubmit w st =
    [ PreventDefault; SetLoading true;
      InsertSymptomEntry uid (selectedSymptoms st)
        (match notes st with [] => None | n => Some n end) ]
    ++ match symptomEntry w with
       | inl symptomError =>
           [ ConsoleError (str "Submit error:");
             ToastError (message_or symptomError (str "Failed to log symptoms")) ]
       | inr entry_id => analyse_and_save w st uid entry_id
       end
    ++ [ SetLoading false ].
Proof.
  intros Hs Hu. unfold handleSubmit, try_catch_block. rewrite Hu.
  destruct (selectedSymptoms st); [contradiction|]. reflexivity.
Qed.

Lemma analyse_and_save_events (w : World) (st : State) (uid entry_id : jsstring) :
  exists post,
    analyse_and_save w st uid entry_id
      = Invoke (str "analyze-symptoms") (selectedSymptoms st) :: post /\
    filter is_invoke post = [] /\ filter is_entry_insert post = [].
Proof.
  unfold analyse_and_save. eexists. split; [reflexivity|].
  destruct (analysisError w); [split; reflexivity|].
  destruct (truthy (analysis w)); [|split; reflexivity].
  destruct (assessmentError w); split; reflexivity.
Qed.

(** C5, as stated, fails: with Fever and Cough ticked and nobody signed
    in, the submission goes to the sign-in page and inserts no row. *)
Lemma signed_out_counterexample :
  selectedSymptoms fever_cough = [str "Fever"; str "Cough"] /\
  handleSubmit signed_out fever_cough
    = [ PreventDefault; SetLoading true; Navigate (str "/auth"); SetLoading false ] /\
  length (filter is_entry_insert (handleSubmit signed_out fever_cough)) = 0.
Proof. repeat split. Qed.

(** C5, amended.  For every submission of a signed-in user with a
    non-empty selection, whatever the calls answer: exactly one
    [symptom_entries] insert is issued, with exactly the selected labels,
    and it comes before any call of the analysis function; when it
    succeeds the analysis function is called once, right after it; when it
    fails the error is surfaced and the analysis function is not called. *)
Theorem one_entry_before_analysis (w : World) (st : State) (uid : jsstring) :
  selectedSymptoms st <> [] ->
  user w = Some uid ->
  exists post,
    handleSubmit w st =
      [ PreventDefault; SetLoading true;
        InsertSymptomEntry uid (selectedSymptoms st)
          (match notes st with [] => None | n => Some n end) ] ++ post
    /\ filter is_entry_insert post = []
    /\ length (filter is_entry_insert (handleSubmit w st)) = 1
    /\ (forall entry_id, symptomEntry w = inr entry_id ->
          exists post',
            post = Invoke (str "analyze-symptoms") (selectedSymptoms st) :: post'
            /\ filter is_invoke post' = [])
    /\ (forall symptomError, symptomEntry w = inl symptomError ->
          filter is_invoke (handleSubmit w st) = []
          /\ post = [ ConsoleError (str "Submit error:");
                      ToastError (message_or symptomError (str "Failed to log symptoms"));
                      SetLoading false ]).
Proof.
  intros Hs Hu. rewrite (handleSubmit_signed_in w st Hs Hu).
  eexists. split; [reflexivity|].
  destruct (symptomEntry w) as [e|entry_id].
  - split; [reflexivity|]. split; [reflexivity|].
    split; [intros id' Hid; discriminate|].
    intros e' He'. injection He' as <-. split; reflexivity.
  - destruct (analyse_and_save_events w st uid entry_id) as (post & -> & Hi & He).
    assert (Hf : filter is_entry_insert
                   ((Invoke (str "analyze-symptoms") (selectedSymptoms st) :: post)
                      ++ [SetLoading false]) = []).
    { simpl. rewrite filter_app, He. reflexivity. }
    split; [exact Hf|]. split.
    { simpl. simpl in Hf. rewrite Hf. reflexivity. }
    split; [|intros e' He'; discriminate].
    intros id' Hid. eexists. split; [reflexivity|].
    rewrite filter_app, Hi. reflexivity.
Qed.

(** Signed in, Fever and Cough ticked, the first insert refused. *)
Lemma one_entry_before_analysis_witness :
  exists post,
    handleSubmit entry_refused fever_cough =
      [ PreventDefault; SetLoading true;
        InsertSymptomEntry (str "user-1") [str "Fever"; str "Cough"] None ] ++ post
    /\ filter is_entry_insert post = []
    /\ length (filter is_entry_insert (handleSubmit entry_refused fever_cough)) = 1
    /\ (forall entry_id, symptomEntry entry_refused = inr entry_id ->
          exists post',
            post = Invoke (str "analyze-symptoms") [str "Fever"; str "Cough"] :: post'
            /\ filter is_invoke post' = [])
    /\ (forall symptomError, symptomEntry entry_refused = inl symptomError ->
          filter is_invoke (handleSubmit entry_refused fever_cough) = []
          /\ post = [ ConsoleError (str "Submit error:");
                      ToastError (message_or symptomError (str "Failed to log symptoms"));
                      SetLoading false ]).
Proof.
  apply (@one_entry_before_analysis entry_refused fever_cough (str "user-1")).
  - discriminate.
  - reflexivity.
Defined.

(** Where a [risk_assessments] insert is issued at all. *)
Lemma assessment_insert_path (w : World) (st : State)
      (sid uid : jsstring) (p rl : jsval) :
  In (InsertRiskAssessment sid uid p rl) (handleSubmit w st) ->
  selectedSymptoms st <> [] /\ user w = Some uid /\ symptomEntry w = inr sid /\
  analysisError w = None /\ truthy (analysis w) = true /\
  p = analysis w /\ rl = risk_level_of (analysis w).
Proof.
  unfold handleSubmit, try_catch_block, analyse_and_save.
  destruct (selectedSymptoms st) as [|s l].
  { simpl. intuition discriminate. }
  destruct (user w) as [u|]; [|simpl; intuition discriminate].
  destruct (symptomEntry w) as [e|entry_id]; [simpl; intuition discriminate|].
  destruct (analysisError w); [simpl; intuition discriminate|].
  destruct (truthy (analysis w)); [|simpl; intuition discriminate].
  destruct (assessmentError w); simpl; intros H;
    repeat (destruct H as [H|H]; try discriminate; try contradiction);
    injection H as <- <- <- <-; repeat split; discriminate.
Qed.

(** C7.  When the [risk_assessments] insert that follows a successful
    analysis call fails, the handler writes the error to the console and
    shows no error toast; the analysis is stored in [analysisResult] and
    the success toast is shown. *)
Theorem assessment_failure_is_only_logged
        (w : World) (st : State) (sid uid : jsstring) (p rl : jsval)
        (assessmentError_ : ClientError) :
  In (InsertRiskAssessment sid uid p rl) (handleSubmit w st) ->
  assessmentError w = Some assessmentError_ ->
  handleSubmit w st =
    [ PreventDefault; SetLoading true;
      InsertSymptomEntry uid (selectedSymptoms st)
        (match notes st with [] => None | n => Some n end);
      Invoke (str "analyze-symptoms") (selectedSymptoms st);
      InsertRiskAssessment sid uid (analysis w) (risk_level_of (analysis w));
      ConsoleError (str "Assessment error:");
      SetAnalysisResult (analysis w);
      ToastSuccess (str "Symptoms logged successfully!");
      SetLoading false ]
  /\ filter is_toast_error (handleSubmit w st) = []
  /\ analysisResult (after w st) = analysis w
  /\ truthy (analysis w) = true.
Proof.
  intros Hin Ha.
  destruct (assessment_insert_path Hin) as (Hs & Hu & He & Hae & Ht & _ & _).
  assert (Hrun : handleSubmit w st =
    [ PreventDefault; SetLoading true;
      InsertSymptomEntry uid (selectedSymptoms st)
        (match notes st with [] => None | n => Some n end);
      Invoke (str "analyze-symptoms") (selectedSymptoms st);
      InsertRiskAssessment sid uid (analysis w) (risk_level_of (analysis w));
      ConsoleError (str "Assessment error:");
      SetAnalysisResult (analysis w);
      ToastSuccess (str "Symptoms logged successfully!");
      SetLoading false ]).
  { rewrite (handleSubmit_signed_in w st Hs Hu), He.
    unfold analyse_and_save. rewrite Hae, Ht, Ha. reflexivity. }
  unfold after. rewrite Hrun. repeat split; assumption.
Qed.

(** Signed in, the analysis arrives, the second insert refused. *)
Lemma assessment_failure_is_only_logged_witness :
  handleSubmit assessment_refused fever_cough =
    [ PreventDefault; SetLoading true;
      InsertSymptomEntry (str "user-1") [str "Fever"; str "Cough"] None;
      Invoke (str "analyze-symptoms") [str "Fever"; str "Cough"];
      InsertRiskAssessment (str "entry-1") (str "user-1") (Some good_analysis)
                           (Some (JStr (str "low")));
      ConsoleError (str "Assessment error:");
      SetAnalysisResult (Some good_analysis);
      ToastSuccess (str "Symptoms logged successfully!");
      SetLoading false ]
  /\ filter is_toast_error (handleSubmit assessment_refused fever_cough) = []
  /\ analysisResult (after assessment_refused fever_cough) = Some good_analysis
  /\ truthy (Some good_analysis) = true.
Proof.
  apply (@assessment_failure_is_only_logged assessment_refused fever_cough
           (str "entry-1") (str "user-1") (Some good_analysis)
           (Some (JStr (str "low")))
           {| message := str "new row violates row-level security policy" |}).
  - vm_compute. do 4 right. left. reflexivity.
  - reflexivity.
Defined.

End SymptomsClaims.

Section RiskLevelClaim.

Import Symptoms Examples.

Lemma risk_level_check_nonempty (s : jsstring) :
  Schema.risk_level_check s = true -> s <> [].
Proof. intros H ->. vm_compute in H. discriminate. Qed.



End RiskLevelClaim.

(* ================================================================= *)
(** * The dashboard *)
(* ================================================================= *)

Section OrderFacts.

Import Schema.

Variable A : Type.
Variable key : A -> Z.

Lemma insert_desc_perm (x : A) (l : list A) :
  Permutation (insert_desc key x l) (x :: l).
Proof.
  induction l as [|y l IH]; simpl; [reflexivity|].
  destruct (Z.leb (key y) (key x)); [reflexivity|].
  rewrite IH. apply perm_swap.
Qed.

Lemma order_desc_perm (l : list A) : Permutation (order_desc key l) l.
Proof.
  induction l as [|x l IH]; simpl; [reflexivity|].
  rewrite insert_desc_perm. now constructor.
Qed.

Lemma insert_desc_sorted (x : A) (l : list A) :
  StronglySorted (not_older key) l ->
  StronglySorted (not_older key) (insert_desc key x l).
Proof.
  induction 1 as [|y l Hs IH Hy]; simpl.
  - repeat constructor.
  - destruct (Z.leb (key y) (key x)) eqn:E.
    + apply Z.leb_le in E. constructor; [now constructor|].
      constructor; [exact E|].
      eapply Forall_impl; [|exact Hy]. unfold not_older. intros z Hz. lia.
    + apply Z.leb_gt in E. constructor; [exact IH|].
      eapply Permutation_Forall; [symmetry; apply insert_desc_perm|].
      constructor; [unfold not_older; lia | exact Hy].
Qed.

Lemma order_desc_sorted (l : list A) :
  StronglySorted (not_older key) (order_desc key l).
Proof.
  induction l as [|x l IH]; simpl; [constructor|].
  now apply insert_desc_sorted.
Qed.

Lemma sorted_app_not_older (a b : list A) :
  StronglySorted (not_older key) (a ++ b) ->
  forall x y, In x a -> In y b -> not_older key x y.
Proof.
  induction a as [|z a IH]; simpl; intros Hs x y Hx Hy; [contradiction|].
  inversion Hs as [|? ? Hs' Hz]; subst.
  destruct Hx as [<- | Hx].
  - rewrite Forall_forall in Hz. apply Hz. apply in_or_app. now right.
  - now apply IH.
Qed.

(** The first [n] rows in descending order are the [n] most recent: the
    rows left out are a rest of the table, none more recent than a row
    kept. *)
Lemma firstn_order_desc_most_recent (n : nat) (l : list A) :
  length (firstn n (order_desc key l)) <= n /\
  StronglySorted (not_older key) (firstn n (order_desc key l)) /\
  exists older,
    Permutation (firstn n (order_desc key l) ++ older) l /\
    forall x y, In x (firstn n (order_desc key l)) -> In y older ->
                not_older key x y.
Proof.
  split; [apply firstn_le_length|].
  pose proof (order_desc_sorted l) as Hs.
  rewrite <- (firstn_skipn n (order_desc key l)) in Hs.
  split.
  - clear -Hs. revert Hs.
    generalize (firstn n (order_desc key l)) (skipn n (order_desc key l)).
    induction l0 as [|z a IH]; simpl; intros b Hs; [constructor|].
    inversion Hs as [|? ? Hs' Hz]; subst. constructor; [now apply (IH b)|].
    apply Forall_app in Hz. tauto.
  - exists (skipn n (order_desc key l)). split.
    + rewrite firstn_skipn. apply order_desc_perm.
    + now apply sorted_app_not_older.
Qed.

End OrderFacts.

Section DashboardClaims.

Import Schema Dashboard Examples.

Lemma join_strings (eng : Engine) (labels : list jsstring) (sep : jsstring) :
  join eng (map JStr labels) sep = concat_sep sep labels.
Proof.
  unfold join. induction labels as [|x [|y l] IH]; try reflexivity.
  change (x ++ sep ++ concat_sep sep (map (join_text eng) (map JStr (y :: l)))
          = x ++ sep ++ concat_sep sep (y :: l)).
  now rewrite IH.
Qed.

Lemma find_assessment_none (ras : list risk_assessment) (entry : SymptomEntry) :
  (forall a, In a ras -> ra_symptom_entry_id a <> id entry) ->
  find_assessment ras entry = None.
Proof.
  unfold find_assessment. induction ras as [|a ras IH]; simpl; [reflexivity|].
  intros H. destruct (streq (ra_symptom_entry_id a) (id entry)) eqn:E.
  - apply streq_eq in E. exfalso. apply (H a); auto.
  - apply IH. intros b Hb. apply H. now right.
Qed.

Lemma find_assessment_some (ras : list risk_assessment) (entry : SymptomEntry)
      (a : risk_assessment) :
  find_assessment ras entry = Some a ->
  In a ras /\ ra_symptom_entry_id a = id entry.
Proof.
  unfold find_assessment. intros H. apply find_some in H as [Hin E].
  split; [assumption | now apply streq_eq].
Qed.

Lemma before_T_date (date time : jsstring) :
  Forall (fun c => c <> 84%N) date ->
  before_T (date ++ 84%N :: time) = date.
Proof.
  induction 1 as [|c date Hc _ IH]; simpl; [reflexivity|].
  apply N.eqb_neq in Hc. rewrite Hc. now rewrite IH.
Qed.

Lemma find_first_match (A : Type) (f : A -> bool) (before after : list A) (a : A) :
  Forall (fun b => f b = false) before -> f a = true ->
  find f (before ++ a :: after) = Some a.
Proof.
  intros Hb Ha. induction Hb as [|b before Hf _ IH]; simpl.
  - now rewrite Ha.
  - now rewrite Hf.
Qed.

Lemma export_throws_some (eng : Engine) (st : State) :
  Exists (fun entry => existsb no_primitive (symptoms entry) = true)
         (symptomEntries st) ->
  exists error, export_throws eng st = Some error.
Proof.
  intros H. unfold export_throws.
  destruct (find (fun entry => existsb no_primitive (symptoms entry))
                 (symptomEntries st)) as [entry|] eqn:Hf.
  - apply find_some in Hf as [_ He]. unfold join_throws. rewrite He.
    eexists. reflexivity.
  - exfalso. apply Exists_exists in H as (entry & Hin & He).
    pose proof (find_none _ _ Hf _ Hin) as Hn. cbv beta in Hn. congruence.
Qed.

Lemma export_throws_none (eng : Engine) (st : State) :
  Forall (fun entry => existsb no_primitive (symptoms entry) = false)
         (symptomEntries st) ->
  export_throws eng st = None.
Proof.
  intros H. unfold export_throws.
  destruct (find (fun entry => existsb no_primitive (symptoms entry))
                 (symptomEntries st)) as [entry|] eqn:Hf; [|reflexivity].
  apply find_some in Hf as [Hin He].
  rewrite Forall_forall in H. rewrite (H _ Hin) in He. discriminate.
Qed.

Lemma count_line_feeds (rows : list jsstring) :
  Forall (fun row => ~ In 10%N row) rows ->
  count_occ N.eq_dec (concat_sep [10%N] rows) 10%N = pred (length rows).
Proof.
  induction 1 as [|x rows Hx Hr IH]; [reflexivity|].
  apply (count_occ_not_In N.eq_dec) in Hx.
  destruct rows as [|y rows]; [exact Hx|].
  change (concat_sep [10%N] (x :: y :: rows))
    with (x ++ [10%N] ++ concat_sep [10%N] (y :: rows)).
  rewrite !count_occ_app, Hx, IH. reflexivity.
Qed.

(** C8, as stated, fails.  Nothing is escaped: one entry whose note closes
    the quotes and breaks the line gives, character for character, the
    file of two entries, so the file does not have one row per entry; and
    when a stored symptom is an object with a [toString] member the
    [join] of line 85 throws, no file is produced and the failure toast
    is all there is. *)
Lemma export_rows_counterexample :
  length (symptomEntries broken_note_page) = 1 /\
  length (symptomEntries plain_page) = 2 /\
  exportData sample_engine (str "2026-11-02T10:00:00.000Z") broken_note_page
    = exportData sample_engine (str "2026-11-02T10:00:00.000Z") plain_page /\
  exportData sample_engine (str "2026-11-02T10:00:00.000Z") broken_note_page
    = [ Download (str "symptom-tracker-2026-11-02.csv")
          (str "Date,Symptoms,Risk Level,Notes" ++ [10%N] ++
           txt "11/2/2026,'Fever',N/A,''" ++ [10%N] ++
           txt "11/2/2026,'Headache',N/A,''");
        ToastSuccess (str "Data exported successfully!") ] /\
  length (symptomEntries no_text_page) = 1 /\
  exportData sample_engine (str "2026-11-02T10:00:00.000Z") no_text_page
    = [ ToastError (str "Failed to export data") ].
Proof. vm_compute. repeat split. Qed.

(** C8, amended.  When every stored symptom has a text, the export
    downloads a file named symptom-tracker-, the part of the current
    instant before its T, .csv, whose content is the header line
    [Date,Symptoms,Risk Level,Notes] followed by one text per symptom
    entry, in order, joined by line feeds; the text of an entry is its
    local date, a comma, a double quote, its symptoms joined by a comma
    and a space, a double quote, a comma, the risk level, a comma, a
    double quote, its notes if any, a double quote; the risk level is
    that of the first loaded assessment that refers to the entry, and N/A
    when none does or that level is empty; nothing is escaped, and the
    content has one line feed per entry when no such text holds one.
    When a stored symptom is or holds an object with a [toString] member
    nothing is downloaded and only the failure toast is shown. *)
Theorem export_rows_are_not_escaped (eng : Engine) (now : jsstring) (st : State) :
  (Exists (fun entry => existsb no_primitive (symptoms entry) = true)
          (symptomEntries st) ->
   exportData eng now st = [ ToastError (str "Failed to export data") ])
  /\
  (Forall (fun entry => existsb no_primitive (symptoms entry) = false)
          (symptomEntries st) ->
   exists rows,
     exportData eng now st =
       [ Download (str "symptom-tracker-" ++ before_T now ++ str ".csv")
           (concat_sep [10%N] (str "Date,Symptoms,Risk Level,Notes" :: rows));
         ToastSuccess (str "Data exported successfully!") ]
     /\ length rows = length (symptomEntries st)
     /\ (forall i entry, nth_error (symptomEntries st) i = Some entry ->
           exists level,
             nth_error rows i =
               Some (toLocaleDateString eng (created_at entry)
                     ++ [44%N; 34%N] ++ join eng (symptoms entry) [44%N; 32%N]
                     ++ [34%N; 44%N] ++ level
                     ++ [44%N; 34%N]
                     ++ match notes entry with Some n => n | None => [] end
                     ++ [34%N])
             /\ (Forall (fun a => ra_symptom_entry_id a <> id entry)
                        (riskAssessments st) ->
                 level = str "N/A")
             /\ (forall before a after,
                   riskAssessments st = before ++ a :: after ->
                   Forall (fun b => ra_symptom_entry_id b <> id entry) before ->
                   ra_symptom_entry_id a = id entry ->
                   level = match ra_risk_level a with
                           | [] => str "N/A"
                           | _ => ra_risk_level a
                           end))
     /\ (Forall (fun row => ~ In 10%N row) rows ->
         count_occ N.eq_dec
           (concat_sep [10%N] (str "Date,Symptoms,Risk Level,Notes" :: rows)) 10%N
         = length (symptomEntries st)))
  /\
  (forall labels : list jsstring,
     join eng (map JStr labels) [44%N; 32%N] = concat_sep [44%N; 32%N] labels)
  /\
  (forall date time, Forall (fun c => c <> 84%N) date ->
     before_T (date ++ 84%N :: time) = date).
Proof.
  split; [|split; [|split]].
  - intros H. destruct (@export_throws_some eng st H) as [error He].
    unfold exportData. now rewrite He.
  - intros H.
    exists (map (csv_row eng (riskAssessments st)) (symptomEntries st)).
    split; [|split; [|split]].
    + unfold exportData. now rewrite (@export_throws_none eng st H).
    + apply length_map.
    + intros i entry Hi.
      exists (risk_column (find_assessment (riskAssessments st) entry)).
      split; [|split].
      * rewrite nth_error_map, Hi. unfold csv_row, quoted.
        cbn [option_map concat_sep]. f_equal.
        change (str ",") with [44%N].
        repeat (rewrite <- ?app_assoc; cbn [app]). reflexivity.
      * intros Hn. rewrite find_assessment_none; [reflexivity|].
        now apply Forall_forall.
      * intros before a after Hras Hb Ha. unfold find_assessment.
        rewrite Hras, (@find_first_match _ _ before after a).
        -- unfold risk_column. destruct (ra_risk_level a); reflexivity.
        -- eapply Forall_impl; [|exact Hb]. intros b Hne. now apply streq_neq.
        -- now apply streq_eq.
    + intros Hrows.
      rewrite count_line_feeds.
      * cbn [length pred]. apply length_map.
      * constructor; [|assumption].
        vm_compute. intros Hin.
        repeat (destruct Hin as [Hin | Hin]; [discriminate|]). exact Hin.
  - intros labels. apply join_strings.
  - intros date time Hd. now apply before_T_date.
Qed.

(** The export of two entries, the first with an assessment and the
    second without: two lines after the header, the second with N/A. *)
Lemma export_rows_are_not_escaped_witness :
  exists rows,
    exportData sample_engine (str "2026-11-02T10:00:00.000Z") two_entries_page =
      [ Download (str "symptom-tracker-" ++ before_T (str "2026-11-02T10:00:00.000Z")
                  ++ str ".csv")
          (concat_sep [10%N] (str "Date,Symptoms,Risk Level,Notes" :: rows));
        ToastSuccess (str "Data exported successfully!") ]
    /\ length rows = 2
    /\ nth_error rows 0 =
         Some (str "11/2/2026" ++ [44%N; 34%N] ++ str "Fever, Cough"
               ++ [34%N; 44%N] ++ str "low" ++ [44%N; 34%N]
               ++ str "since Monday" ++ [34%N])
    /\ nth_error rows 1 =
         Some (str "11/2/2026" ++ [44%N; 34%N] ++ str "Headache"
               ++ [34%N; 44%N] ++ str "N/A" ++ [44%N; 34%N] ++ [] ++ [34%N]).
Proof.
  destruct (proj1 (proj2 (@export_rows_are_not_escaped sample_engine
                            (str "2026-11-02T10:00:00.000Z") two_entries_page)))
    as (rows & Hd & Hl & Hrow & _).
  - repeat constructor.
  - exists rows. split; [exact Hd|]. split; [exact Hl|]. split.
    + destruct (Hrow 0 _ eq_refl) as (level & -> & _ & Hfirst).
      rewrite (Hfirst [] _ [] eq_refl (Forall_nil _) eq_refl). reflexivity.
    + destruct (Hrow 1 _ eq_refl) as (level & -> & Hnone & _).
      rewrite Hnone; [reflexivity|].
      repeat constructor. discriminate.
Defined.

(** The file of that export, as it is written. *)
Lemma export_of_two_entries :
  exportData sample_engine (str "2026-11-02T10:00:00.000Z") two_entries_page
  = [ Download (str "symptom-tracker-2026-11-02.csv")
        (str "Date,Symptoms,Risk Level,Notes" ++ [10%N] ++
         txt "11/2/2026,'Fever, Cough',low,'since Monday'" ++ [10%N] ++
         txt "11/2/2026,'Headache',N/A,''");
      ToastSuccess (str "Data exported successfully!") ].
Proof. vm_compute. reflexivity. Qed.

(** C9.  After the load on mount the page holds at most 10 symptom
    entries and at most 10 risk assessments, so both counters are at most
    10 and the export has at most 10 lines after its header; when both
    queries succeed these are the rows the signed-in user may see, in
    descending order of creation, cut after the tenth: every row left out
    is no more recent than any row loaded. *)
Theorem dashboard_loads_ten_most_recent (eng : Engine) (w : World) :
  total_entries (loaded w) <= 10
  /\ total_assessments (loaded w) <= 10
  /\ length (csv_rows eng (loaded w)) <= 11
  /\ (forall uid, user w = Some uid ->
        symptomsError w = None -> assessmentsError w = None ->
        symptomEntries (loaded w) = map typed (recent_symptom_entries (db w) uid)
        /\ riskAssessments (loaded w) = recent_risk_assessments (db w) uid)
  /\ (forall uid,
        StronglySorted (not_older se_created_at) (recent_symptom_entries (db w) uid)
        /\ exists older,
             Permutation (recent_symptom_entries (db w) uid ++ older)
                         (filter (fun e => can_view (db w) uid (se_user_id e))
                                 (symptom_entries (db w)))
             /\ forall x y, In x (recent_symptom_entries (db w) uid) -> In y older ->
                            (se_created_at y <= se_created_at x)%Z)
  /\ (forall uid,
        StronglySorted (not_older ra_created_at) (recent_risk_assessments (db w) uid)
        /\ exists older,
             Permutation (recent_risk_assessments (db w) uid ++ older)
                         (filter (fun a => can_view (db w) uid (ra_user_id a))
                                 (risk_assessments (db w)))
             /\ forall x y, In x (recent_risk_assessments (db w) uid) -> In y older ->
                            (ra_created_at y <= ra_created_at x)%Z).
Proof.
  assert (He : total_entries (loaded w) <= 10).
  { unfold total_entries, loaded, fetchDashboardData.
    destruct (user w) as [uid|]; [|simpl; lia].
    destruct (symptomsError w); [simpl; lia|].
    destruct (assessmentsError w); [simpl; lia|].
    simpl. rewrite length_map. apply firstn_le_length. }
  assert (Ha : total_assessments (loaded w) <= 10).
  { unfold total_assessments, loaded, fetchDashboardData.
    destruct (user w) as [uid|]; [|simpl; lia].
    destruct (symptomsError w); [simpl; lia|].
    destruct (assessmentsError w); [simpl; lia|].
    simpl. apply firstn_le_length. }
  split; [exact He|]. split; [exact Ha|].
  split; [unfold csv_rows; simpl; rewrite length_map;
          unfold total_entries in He; lia|].
  split; [|split].
  - intros uid Hu Hs Hq. unfold loaded, fetchDashboardData.
    rewrite Hu, Hs, Hq. split; reflexivity.
  - intros uid. unfold recent_symptom_entries.
    destruct (firstn_order_desc_most_recent se_created_at 10
                (filter (fun e => can_view (db w) uid (se_user_id e))
                        (symptom_entries (db w)))) as (_ & Hs & older & Hp & Ho).
    split; [exact Hs|]. exists older. split; [exact Hp|exact Ho].
  - intros uid. unfold recent_risk_assessments.
    destruct (firstn_order_desc_most_recent ra_created_at 10
                (filter (fun a => can_view (db w) uid (ra_user_id a))
                        (risk_assessments (db w)))) as (_ & Hs & older & Hp & Ho).
    split; [exact Hs|]. exists older. split; [exact Hp|exact Ho].
Qed.

(** With eleven entries of her own, a user sees ten of them counted, the
    oldest one left out. *)
Example long_history_is_cut :
  length (symptom_entries (db long_history)) = 11
  /\ total_entries (loaded long_history) = 10
  /\ map created_at (symptomEntries (loaded long_history))
     = [11; 10; 9; 8; 7; 6; 5; 4; 3; 2]%Z.
Proof. vm_compute. repeat split. Qed.

End DashboardClaims.

(* ================================================================= *)
(** * More on the analysis function: every path of the handler *)
(* ================================================================= *)

Section HandlerPaths.

Import AnalyzeSymptoms Examples.

Variable eng : Engine.

(** An early [return] of the status check is one of the two fixed
    responses. *)
Lemma check_status_return_exact (response : UpstreamResponse) tr tr' r :
  check_status response tr = (tr', inl (Return r)) ->
  r = {| status := 429; headers := jsonHeaders;
         payload := error_body (str "Rate limit exceeded. Please try again later.") |}
  \/ r = {| status := 402; headers := jsonHeaders;
            payload := error_body (str "AI credits exhausted. Please add credits to continue.") |}.
Proof.
  unfold check_status, bind, emit, return_, throw, ret.
  destruct (negb (ok response)); [|discriminate].
  destruct (N.eqb (up_status response) 429).
  - intros H; injection H as <- <-. now left.
  - destruct (N.eqb (up_status response) 402).
    + intros H; injection H as <- <-. now right.
    + discriminate.
Qed.

Lemma ai_reply_return_exact (w : World) (req : Request) tr r :
  ai_reply eng w req [] = (tr, inl (Return r)) ->
  r = {| status := 429; headers := jsonHeaders;
         payload := error_body (str "Rate limit exceeded. Please try again later.") |}
  \/ r = {| status := 402; headers := jsonHeaders;
            payload := error_body (str "AI credits exhausted. Please add credits to continue.") |}.
Proof.
  unfold ai_reply, bind.
  destruct (call_gateway eng w req []) as [tr1 [e|response]] eqn:Hc.
  - intros H; injection H as <- ->.
    apply call_gateway_exit in Hc as [t Ht]. discriminate.
  - destruct (check_status response tr1) as [tr2 [e|[]]] eqn:Hs.
    + intros H; injection H as <- ->. eapply check_status_return_exact; eauto.
    + intros H. apply read_reply_exit in H as [t Ht]. discriminate.
Qed.

(** The five ways the handler ends. *)
Lemma handler_cases (w : World) (req : Request) :
  (streq (method req) (str "OPTIONS") = true /\
   handler eng w req =
     ([], {| status := 200; headers := corsHeaders; payload := NoBody |}))
  \/ (exists tr t,
        handler eng w req =
          (tr ++ [ConsoleError (str "Error in analyze-symptoms:")],
           {| status := 500; headers := jsonHeaders;
              payload := error_body (message_of t) |}))
  \/ (exists tr,
        handler eng w req =
          (tr, {| status := 429; headers := jsonHeaders;
                  payload := error_body (str "Rate limit exceeded. Please try again later.") |}))
  \/ (exists tr,
        handler eng w req =
          (tr, {| status := 402; headers := jsonHeaders;
                  payload := error_body (str "AI credits exhausted. Please add credits to continue.") |}))
  \/ (exists tr aiResponse,
        obtains_reply eng w req tr aiResponse /\
        handler eng w req =
          match extract aiResponse with
          | Some v => (tr, success v)
          | None => (tr ++ [ConsoleError (str "Failed to parse AI response:")],
                     success fallback)
          end).
Proof.
  destruct (streq (method req) (str "OPTIONS")) eqn:Hm.
  - left. split; [reflexivity|]. unfold handler. now rewrite Hm.
  - right.
    destruct (ai_reply eng w req []) as [tr [[r|t]|aiResponse]] eqn:Hr.
    + assert (Hh : handler eng w req = (tr, r)).
      { unfold handler, try_block, bind. now rewrite Hm, Hr. }
      destruct (ai_reply_return_exact _ _ Hr) as [-> | ->].
      * right. left. now exists tr.
      * right. right. left. now exists tr.
    + left. exists tr, t. unfold handler, try_block, bind. now rewrite Hm, Hr.
    + right. right. right. exists tr, aiResponse.
      assert (Ho : obtains_reply eng w req tr aiResponse) by now split.
      split; [exact Ho | apply (handler_after_reply Ho)].
Qed.

(** Only the lines up to the gateway call can call the gateway. *)
Lemma check_status_fetches (response : UpstreamResponse) tr tr' x :
  check_status response tr = (tr', x) ->
  filter is_fetch tr' = filter is_fetch tr.
Proof.
  unfold check_status, bind, emit, return_, throw, ret.
  destruct (negb (ok response)).
  - destruct (N.eqb (up_status response) 429);
      [|destruct (N.eqb (up_status response) 402)];
      intros H; injection H as <- _; rewrite filter_app; apply app_nil_r.
  - intros H; injection H as <- _. reflexivity.
Qed.

Lemma read_reply_fetches (response : UpstreamResponse) tr tr' x :
  read_reply eng response tr = (tr', x) ->
  filter is_fetch tr' = filter is_fetch tr.
Proof.
  unfold read_reply, bind, parse_or_throw, lift, emit, throw, ret.
  destruct (JSON_parse (up_text response)) as [data|];
    [|intros H; injection H as <- _; reflexivity].
  destruct (get eng (Some data) (str "choices")) as [t|choices];
    [intros H; injection H as <- _; reflexivity|].
  destruct (get0 eng choices) as [t|choice];
    [intros H; injection H as <- _; reflexivity|].
  destruct (get eng choice (str "message")) as [t|message];
    [intros H; injection H as <- _; reflexivity|].
  destruct (get eng message (str "content")) as [t|content];
    intros H; injection H as <- _; [reflexivity|].
  rewrite filter_app. apply app_nil_r.
Qed.

(** The gateway is called at most once, and only with a key that is not
    empty. *)
Lemma call_gateway_fetches (w : World) (req : Request) tr x :
  call_gateway eng w req [] = (tr, x) ->
  filter is_fetch tr = []
  \/ exists key joined,
       LOVABLE_API_KEY w = Some key /\ key <> [] /\
       filter is_fetch tr =
         [ Fetch (str "https://ai.gateway.lovable.dev/v1/chat/completions")
                 (str "Bearer " ++ key) (str "google/gemini-2.5-flash")
                 systemPrompt (str "Analyze these symptoms: " ++ joined) ].
Proof.
  unfold call_gateway, bind, parse_or_throw, lift, join_symptoms, emit, throw, ret.
  destruct (JSON_parse (req_text req)) as [parsed|];
    [|intros H; injection H as <- _; now left].
  destruct (destructure eng parsed (str "symptoms")) as [t|symptoms];
    [intros H; injection H as <- _; now left|].
  destruct (LOVABLE_API_KEY w) as [[|c key]|] eqn:Hk;
    try (intros H; injection H as <- _; now left).
  destruct symptoms as [[ | | | | l | ]|];
    try (intros H; injection H as <- _; now left).
  destruct (join_throws eng l);
    [intros H; injection H as <- _; now left|].
  intros H. right. exists (c :: key), (join eng l (str ", ")).
  split; [reflexivity|]. split; [discriminate|].
  destruct (upstream w); injection H as <- _; reflexivity.
Qed.

Lemma handler_fetches (w : World) (req : Request) :
  streq (method req) (str "OPTIONS") = false ->
  filter is_fetch (fst (handler eng w req))
  = filter is_fetch (fst (call_gateway eng w req [])).
Proof.
  intros Hm. unfold handler. rewrite Hm. unfold try_block, ai_reply, bind.
  destruct (call_gateway eng w req []) as [tr1 [e|response]] eqn:Hc.
  - destruct e; cbn [fst]; [reflexivity|].
    rewrite filter_app. apply app_nil_r.
  - cbn [fst]. cbv beta.
    destruct (check_status response tr1) as [tr2 [e|[]]] eqn:Hs;
      apply check_status_fetches in Hs.
    + destruct e; cbn [fst]; [exact Hs|].
      rewrite filter_app, Hs. apply app_nil_r.
    + cbv beta.
      destruct (read_reply eng response tr2) as [tr3 [e|ai]] eqn:Hr;
        apply read_reply_fetches in Hr.
      * destruct e; cbn [fst]; [now rewrite Hr, Hs|].
        rewrite filter_app, Hr, Hs. apply app_nil_r.
      * cbv beta. rewrite parse_analysis_run. unfold ret.
        destruct (extract ai); cbn [fst]; [now rewrite Hr, Hs|].
        rewrite filter_app, Hr, Hs. apply app_nil_r.
Qed.

End HandlerPaths.

Section ObjectRoot.

(** A text that opens with a brace parses, if at all, to an object. *)
Lemma bottom_obj_push (f : frame) (stk : list frame) :
  bottom_obj stk = true -> bottom_obj (f :: stk) = true.
Proof. destruct stk as [|g stk]; [discriminate|]. now destruct f. Qed.

Lemma bottom_obj_pop_arr (done : list json) (stk : list frame) :
  bottom_obj (FArr done :: stk) = true -> bottom_obj stk = true.
Proof. destruct stk; [discriminate | trivial]. Qed.

Lemma bottom_obj_pop_obj done key (stk : list frame) :
  bottom_obj (FObj done key :: stk) = true -> stk = [] \/ bottom_obj stk = true.
Proof. destruct stk; [now left | now right]. Qed.

Lemma bottom_obj_push_obj done key (stk : list frame) :
  stk = [] \/ bottom_obj stk = true -> bottom_obj (FObj done key :: stk) = true.
Proof. intros [-> | H]; [reflexivity | now apply bottom_obj_push]. Qed.

Lemma complete_rooted (v : json) (stk : list frame) :
  bottom_obj stk = true -> object_rooted (complete v stk).
Proof.
  destruct stk as [|[done|done key] stk]; [discriminate| |]; simpl complete; intros H.
  - now apply bottom_obj_pop_arr in H.
  - now apply bottom_obj_pop_obj in H.
Qed.

Lemma complete_object_rooted ms (stk : list frame) :
  stk = [] \/ bottom_obj stk = true -> object_rooted (complete (JObj ms) stk).
Proof.
  intros [-> | H]; [simpl; eauto | now apply complete_rooted].
Qed.

Lemma parse_value_rooted (t : token) (stk : list frame) (st : parse_state) :
  bottom_obj stk = true -> parse_value t stk = Some st -> object_rooted st.
Proof.
  intros Hb. destruct t; simpl; intros H; try discriminate;
    injection H as <-; try (now apply complete_rooted); simpl; auto.
Qed.

Lemma parse_step_rooted (st st' : parse_state) (t : token) :
  object_rooted st -> parse_step st t = Some st' -> object_rooted st'.
Proof.
  destruct st as [stk|stk|done stk|stk|done stk|done key stk|done stk|v];
    simpl object_rooted; intros Hr.
  - simpl. now apply parse_value_rooted.
  - pose proof (bottom_obj_push (FArr []) stk Hr) as Hp.
    destruct t;
      try (intros H; exact (@parse_value_rooted _ _ _ Hp H)).
    simpl. intros H; injection H as <-. now apply complete_rooted.
  - destruct t; simpl; intros H; try discriminate; injection H as <-.
    + now apply complete_rooted.
    + cbn [object_rooted]. now apply bottom_obj_push.
  - destruct t; simpl; intros H; try discriminate; injection H as <-.
    + now apply complete_object_rooted.
    + exact Hr.
  - destruct t; simpl; intros H; try discriminate; injection H as <-. exact Hr.
  - destruct t; simpl; intros H; try discriminate; injection H as <-.
    cbn [object_rooted]. now apply bottom_obj_push_obj.
  - destruct t; simpl; intros H; try discriminate; injection H as <-.
    + now apply complete_object_rooted.
    + exact Hr.
  - destruct t; discriminate.
Qed.

Lemma parse_tokens_rooted (ts : list token) (st : parse_state) (v : json) :
  object_rooted st -> parse_tokens st ts = Some v -> exists ms, v = JObj ms.
Proof.
  revert st; induction ts as [|t ts IH]; simpl; intros st Hr.
  - destruct st; try discriminate. intros H; injection H as <-. exact Hr.
  - destruct (parse_step st t) as [st'|] eqn:E; [|discriminate].
    apply IH. eapply parse_step_rooted; eauto.
Qed.

Lemma JSON_parse_brace (rest : jsstring) (v : json) :
  JSON_parse (123%N :: rest) = Some v -> exists ms, v = JObj ms.
Proof.
  unfold JSON_parse. simpl lex.
  destruct (lex LIdle rest) as [ts|]; [|discriminate].
  simpl. apply parse_tokens_rooted. simpl. now left.
Qed.

End ObjectRoot.

Section HandlerProperties.

Import AnalyzeSymptoms Examples.

(** Every response has one of the four statuses 200, 402, 429 and 500 and
    carries the two CORS headers; every response but the answer to a
    pre-flight has the JSON content type as well. *)
Theorem response_status_and_cors (eng : Engine) (w : World) (req : Request) :
  (status (snd (handler eng w req)) = 200%N
   \/ status (snd (handler eng w req)) = 402%N
   \/ status (snd (handler eng w req)) = 429%N
   \/ status (snd (handler eng w req)) = 500%N)
  /\ In (str "Access-Control-Allow-Origin", str "*")
        (headers (snd (handler eng w req)))
  /\ In (str "Access-Control-Allow-Headers",
         str "authorization, x-client-info, apikey, content-type")
        (headers (snd (handler eng w req)))
  /\ (streq (method req) (str "OPTIONS") = false ->
      headers (snd (handler eng w req))
      = [ (str "Access-Control-Allow-Origin", str "*");
          (str "Access-Control-Allow-Headers",
           str "authorization, x-client-info, apikey, content-type");
          (str "Content-Type", str "application/json") ]).
Proof.
  destruct (handler_cases eng w req)
    as [[Hm ->] | [(tr & t & ->) | [(tr & ->) | [(tr & ->) | (tr & ai & [Hm _] & ->)]]]].
  - cbn [snd status headers]. split; [now left|].
    split; [now left|]. split; [right; now left|]. congruence.
  - cbn [snd status headers]. split; [now do 3 right|].
    split; [now left|]. split; [right; now left|]. reflexivity.
  - cbn [snd status headers]. split; [right; right; now left|].
    split; [now left|]. split; [right; now left|]. reflexivity.
  - cbn [snd status headers]. split; [right; now left|].
    split; [now left|]. split; [right; now left|]. reflexivity.
  - destruct (extract ai); cbn [snd success status headers];
      (split; [now left|]); (split; [now left|]);
      (split; [right; now left|]); reflexivity.
Qed.

(** Every response with a status other than 200 has a body of the form
    [{ error: message }], with a string as the message. *)
Theorem error_responses_name_the_error
        (eng : Engine) (w : World) (req : Request) :
  status (snd (handler eng w req)) <> 200%N ->
  exists message,
    payload (snd (handler eng w req))
    = JsonBody (JObj [ (str "error", JStr message) ]).
Proof.
  destruct (handler_cases eng w req)
    as [[Hm ->] | [(tr & t & ->) | [(tr & ->) | [(tr & ->) | (tr & ai & _ & ->)]]]];
    cbn [snd status payload]; intros Hs.
  - contradiction.
  - now exists (message_of t).
  - eexists; reflexivity.
  - eexists; reflexivity.
  - destruct (extract ai); cbn [snd success status] in Hs; contradiction.
Qed.

Lemma error_responses_name_the_error_witness :
  exists message,
    payload (snd (handler sample_engine page_world post_fever_cough))
    = JsonBody (JObj [ (str "error", JStr message) ]).
Proof.
  apply (@error_responses_name_the_error sample_engine page_world post_fever_cough).
  vm_compute. discriminate.
Defined.

(** The body of a 200 answer to a request that is not a pre-flight is a
    JSON object: never an array, a string, a number or [null], whatever
    the model replied. *)
Theorem success_body_is_an_object
        (eng : Engine) (w : World) (req : Request) :
  streq (method req) (str "OPTIONS") = false ->
  status (snd (handler eng w req)) = 200%N ->
  exists ms, payload (snd (handler eng w req)) = JsonBody (JObj ms).
Proof.
  intros Hm.
  destruct (handler_cases eng w req)
    as [[Hm' _] | [(tr & t & ->) | [(tr & ->) | [(tr & ->) | (tr & ai & _ & ->)]]]];
    cbn [snd status payload]; try discriminate; try congruence.
  intros _. destruct (extract ai) as [v|] eqn:E; cbn [snd success payload].
  - unfold extract in E. destruct ai as [[ | | | s | | ]|]; try discriminate.
    destruct (regex_match s) as [span|] eqn:Hs; [|discriminate].
    apply regex_match_span in Hs as (pre & mid & post & _ & -> & _).
    apply JSON_parse_brace in E as [ms ->]. eexists. reflexivity.
  - unfold fallback. eexists; reflexivity.
Qed.

Lemma success_body_is_an_object_witness :
  exists ms,
    payload (snd (handler sample_engine framed_world post_fever_cough))
    = JsonBody (JObj ms).
Proof.
  apply (@success_body_is_an_object sample_engine framed_world post_fever_cough).
  - vm_compute; reflexivity.
  - vm_compute; reflexivity.
Defined.

(** The gateway is called at most once per request, and never for a
    pre-flight or with an absent or empty key: when it is called, the call
    goes to the fixed address with the key as bearer token, the fixed model
    and the system prompt. *)
Theorem gateway_called_at_most_once
        (eng : Engine) (w : World) (req : Request) :
  filter is_fetch (fst (handler eng w req)) = []
  \/ exists key joined,
       streq (method req) (str "OPTIONS") = false /\
       LOVABLE_API_KEY w = Some key /\ key <> [] /\
       filter is_fetch (fst (handler eng w req)) =
         [ Fetch (str "https://ai.gateway.lovable.dev/v1/chat/completions")
                 (str "Bearer " ++ key) (str "google/gemini-2.5-flash")
                 systemPrompt (str "Analyze these symptoms: " ++ joined) ].
Proof.
  destruct (streq (method req) (str "OPTIONS")) eqn:Hm.
  - left. unfold handler. now rewrite Hm.
  - rewrite (handler_fetches eng w req Hm).
    destruct (call_gateway eng w req []) as [tr x] eqn:Hc.
    destruct (call_gateway_fetches eng w req Hc) as [H | (key & joined & Hk & Hn & H)].
    + now left.
    + right. exists key, joined. auto.
Qed.

(** A key set to the empty string counts as no key: no gateway call, and
    a request whose body parses to a value other than [null] gets the
    configuration error with status 500. *)
Theorem empty_key_is_configuration_error
        (eng : Engine) (w : World) (req : Request) (parsed : json) :
  LOVABLE_API_KEY w = Some [] ->
  streq (method req) (str "OPTIONS") = false ->
  JSON_parse (req_text req) = Some parsed -> parsed <> JNull ->
  handler eng w req =
    ([ConsoleError (str "Error in analyze-symptoms:")],
     {| status := 500; headers := jsonHeaders;
        payload := JsonBody (JObj [ (str "error",
                    JStr (str "LOVABLE_API_KEY is not configured")) ]) |}).
Proof.
  intros Hk Hm Hp Hn.
  unfold handler, try_block, ai_reply, call_gateway, bind, parse_or_throw, lift.
  rewrite Hm, Hp, Hk.
  destruct parsed; try contradiction; reflexivity.
Qed.

Lemma empty_key_is_configuration_error_witness :
  handler sample_engine empty_key post_fever_cough =
    ([ConsoleError (str "Error in analyze-symptoms:")],
     {| status := 500; headers := jsonHeaders;
        payload := JsonBody (JObj [ (str "error",
                    JStr (str "LOVABLE_API_KEY is not configured")) ]) |}).
Proof.
  apply (@empty_key_is_configuration_error sample_engine empty_key post_fever_cough
           (JObj [ (str "symptoms", JArr [JStr (str "Fever"); JStr (str "Cough")]) ])).
  - reflexivity.
  - vm_compute; reflexivity.
  - vm_compute; reflexivity.
  - discriminate.
Defined.

End HandlerProperties.

Section HandlerEdges.

Import AnalyzeSymptoms Examples.

(** With the key present, a request whose [symptoms] cannot be joined is
    answered with status 500 and the message of the [TypeError] of line
    55, and the gateway is not called: a missing [symptoms] is a read of
    [join] on [undefined], a [null] one a read of [join] on [null], any
    other value that is not an array has no [join] to call, and an array
    that holds an object with a [toString] member has no text. *)
Theorem symptoms_must_be_an_array
        (eng : Engine) (w : World) (req : Request)
        (parsed : json) (key : jsstring) (symptoms : jsval) :
  streq (method req) (str "OPTIONS") = false ->
  JSON_parse (req_text req) = Some parsed ->
  get eng (Some parsed) (str "symptoms") = inr symptoms ->
  LOVABLE_API_KEY w = Some key -> key <> [] ->
  let answer message :=
    ([ ConsoleLog (str "Analyzing symptoms:");
       ConsoleError (str "Error in analyze-symptoms:") ],
     {| status := 500; headers := jsonHeaders;
        payload := JsonBody (JObj [ (str "error", JStr message) ]) |}) in
  (symptoms = None ->
   handler eng w req = answer (TypeError_message eng (str "join")))
  /\ (symptoms = Some JNull ->
      handler eng w req = answer (TypeError_null_message eng (str "join")))
  /\ (forall v, symptoms = Some v -> v <> JNull -> (forall l, v <> JArr l) ->
      handler eng w req = answer (NotAFunction_message eng (str "symptoms.join")))
  /\ (forall l, symptoms = Some (JArr l) -> existsb no_primitive l = true ->
      handler eng w req = answer (NoPrimitive_message eng)).
Proof.
  intros Hm Hp Hg Hk Hn answer. subst answer.
  unfold handler, try_block, ai_reply, call_gateway, bind, parse_or_throw,
    lift, join_symptoms, emit, throw, ret.
  rewrite Hm, Hp, (destructure_get eng _ _ Hg), Hk.
  destruct key as [|c key]; [contradiction|].
  split; [|split; [|split]].
  - now intros ->.
  - now intros ->.
  - intros v -> Hv Hl. destruct v as [ | | | | l | ]; try reflexivity.
    + contradiction.
    + exfalso. now apply (Hl l).
  - intros l -> Hl. unfold join_throws. rewrite Hl. reflexivity.
Qed.

(** A body whose [symptoms] is a text has no [join] to call. *)
Lemma symptoms_must_be_an_array_witness :
  handler sample_engine (answering []) post_symptoms_text =
    ([ ConsoleLog (str "Analyzing symptoms:");
       ConsoleError (str "Error in analyze-symptoms:") ],
     {| status := 500; headers := jsonHeaders;
        payload := JsonBody (JObj [ (str "error",
                    JStr (str "symptoms.join is not a function")) ]) |}).
Proof.
  refine (proj1 (proj2 (proj2
           (@symptoms_must_be_an_array sample_engine (answering [])
              post_symptoms_text
              (JObj [ (str "symptoms", JStr (str "Fever, Cough")) ])
              (str "secret") (Some (JStr (str "Fever, Cough"))) _ _ _ _ _)))
           (JStr (str "Fever, Cough")) eq_refl _ _).
  - vm_compute; reflexivity.
  - vm_compute; reflexivity.
  - vm_compute; reflexivity.
  - reflexivity.
  - discriminate.
  - discriminate.
  - discriminate.
Defined.

(** For a body whose [symptoms] is a list of strings, with the key
    present, the one gateway call carries the user message "Analyze these
    symptoms: " followed by the labels joined by a comma and a space; the
    list may be empty, the call is made all the same. *)
Theorem user_message_lists_the_labels
        (eng : Engine) (w : World) (req : Request)
        (parsed : json) (key : jsstring) (labels : list jsstring) :
  streq (method req) (str "OPTIONS") = false ->
  JSON_parse (req_text req) = Some parsed ->
  get eng (Some parsed) (str "symptoms") = inr (Some (JArr (map JStr labels))) ->
  LOVABLE_API_KEY w = Some key -> key <> [] ->
  filter is_fetch (fst (handler eng w req)) =
    [ Fetch (str "https://ai.gateway.lovable.dev/v1/chat/completions")
            (str "Bearer " ++ key) (str "google/gemini-2.5-flash")
            systemPrompt
            (str "Analyze these symptoms: " ++ concat_sep (str ", ") labels) ].
Proof.
  intros Hm Hp Hg Hk Hn. rewrite (handler_fetches eng w req Hm).
  unfold call_gateway, bind, parse_or_throw, lift, join_symptoms, emit, throw, ret.
  rewrite Hp, (destructure_get eng _ _ Hg), Hk.
  destruct key as [|c key]; [contradiction|].
  rewrite join_throws_strings, join_strings. destruct (upstream w); reflexivity.
Qed.

Lemma user_message_lists_the_labels_witness :
  filter is_fetch (fst (handler sample_engine prose_world post_no_symptoms)) =
    [ Fetch (str "https://ai.gateway.lovable.dev/v1/chat/completions")
            (str "Bearer " ++ str "secret") (str "google/gemini-2.5-flash")
            systemPrompt
            (str "Analyze these symptoms: " ++ concat_sep (str ", ") []) ].
Proof.
  apply (@user_message_lists_the_labels sample_engine prose_world post_no_symptoms
           (JObj [ (str "symptoms", JArr []) ]) (str "secret") []).
  - vm_compute; reflexivity.
  - vm_compute; reflexivity.
  - vm_compute; reflexivity.
  - reflexivity.
  - discriminate.
Defined.

(** When the gateway call itself is rejected, after a request with a list
    of symptoms that all have a text and with the key present, the handler
    answers with status 500 and the message of the rejection. *)
Theorem gateway_rejection_is_a_500
        (eng : Engine) (w : World) (req : Request)
        (parsed : json) (key : jsstring) (l : list json) (error : thrown) :
  streq (method req) (str "OPTIONS") = false ->
  JSON_parse (req_text req) = Some parsed ->
  get eng (Some parsed) (str "symptoms") = inr (Some (JArr l)) ->
  existsb no_primitive l = false ->
  LOVABLE_API_KEY w = Some key -> key <> [] ->
  upstream w = inl error ->
  handler eng w req =
    ([ ConsoleLog (str "Analyzing symptoms:");
       Fetch (str "https://ai.gateway.lovable.dev/v1/chat/completions")
             (str "Bearer " ++ key) (str "google/gemini-2.5-flash")
             systemPrompt
             (str "Analyze these symptoms: " ++ join eng l (str ", "));
       ConsoleError (str "Error in analyze-symptoms:") ],
     {| status := 500; headers := jsonHeaders;
        payload := JsonBody (JObj [ (str "error", JStr (message_of error)) ]) |}).
Proof.
  intros Hm Hp Hg Hl Hk Hn Hu.
  unfold handler, try_block, ai_reply, call_gateway, bind, parse_or_throw,
    lift, join_symptoms, emit, throw, ret.
  rewrite Hm, Hp, (destructure_get eng _ _ Hg), Hk, Hu, (join_throws_none eng _ Hl).
  destruct key as [|c key]; [contradiction|]. reflexivity.
Qed.

Lemma gateway_rejection_is_a_500_witness :
  snd (handler sample_engine unreachable post_fever_cough) =
    {| status := 500; headers := jsonHeaders;
       payload := JsonBody (JObj [ (str "error",
                   JStr (str "error sending request")) ]) |}.
Proof.
  rewrite (@gateway_rejection_is_a_500 sample_engine unreachable post_fever_cough
             (JObj [ (str "symptoms", JArr [JStr (str "Fever"); JStr (str "Cough")]) ])
             (str "secret") [JStr (str "Fever"); JStr (str "Cough")]
             (ErrorInstance (str "error sending request"))).
  - reflexivity.
  - vm_compute; reflexivity.
  - vm_compute; reflexivity.
  - vm_compute; reflexivity.
  - reflexivity.
  - reflexivity.
  - discriminate.
  - reflexivity.
Defined.

(** A 2xx answer of the gateway whose body is not JSON, or whose list of
    choices is empty, is no case for the fallback: the handler answers
    with status 500 and the engine's message. *)
Theorem unreadable_completion_is_a_500
        (eng : Engine) (w : World) (req : Request)
        (tr : list event) (response : UpstreamResponse) :
  gateway_answers eng w req tr response ->
  ok response = true ->
  (JSON_parse (up_text response) = None ->
   handler eng w req =
     (tr ++ [ConsoleError (str "Error in analyze-symptoms:")],
      {| status := 500; headers := jsonHeaders;
         payload := JsonBody (JObj [ (str "error",
                     JStr (SyntaxError_message eng (up_text response))) ]) |}))
  /\
  (forall data,
     JSON_parse (up_text response) = Some data ->
     get eng (Some data) (str "choices") = inr (Some (JArr [])) ->
     handler eng w req =
       (tr ++ [ConsoleError (str "Error in analyze-symptoms:")],
        {| status := 500; headers := jsonHeaders;
           payload := JsonBody (JObj [ (str "error",
                       JStr (TypeError_message eng (str "message"))) ]) |})).
Proof.
  intros [Hm Hc] Hok.
  assert (Hrun : handler eng w req =
                 match read_reply eng response tr with
                 | (tr1, inl (Return r)) => (tr1, r)
                 | (tr1, inl (Throw error)) =>
                     (tr1 ++ [ConsoleError (str "Error in analyze-symptoms:")],
                      {| status := 500; headers := jsonHeaders;
                         payload := error_body (message_of error) |})
                 | (tr1, inr ai) =>
                     match parse_analysis eng ai tr1 with
                     | (tr2, inr v) => (tr2, success v)
                     | (tr2, inl (Return r)) => (tr2, r)
                     | (tr2, inl (Throw error)) =>
                         (tr2 ++ [ConsoleError (str "Error in analyze-symptoms:")],
                          {| status := 500; headers := jsonHeaders;
                             payload := error_body (message_of error) |})
                     end
                 end).
  { unfold handler. rewrite Hm. unfold try_block, ai_reply, bind. rewrite Hc.
    unfold check_status. rewrite Hok. cbn [negb]. unfold ret at 1.
    destruct (read_reply eng response tr) as [tr1 [[r|t]|ai]]; try reflexivity.
    unfold ret. destruct (parse_analysis eng ai tr1) as [tr2 [[r|t]|v]]; reflexivity. }
  rewrite Hrun. unfold read_reply, bind, parse_or_throw, lift, throw, ret.
  split.
  - intros ->. reflexivity.
  - intros data -> ->. reflexivity.
Qed.

Lemma unreadable_completion_is_a_500_witness :
  snd (handler sample_engine no_choice_world post_fever_cough) =
    {| status := 500; headers := jsonHeaders;
       payload := JsonBody (JObj [ (str "error",
                   JStr (TypeError_message sample_engine (str "message"))) ]) |}.
Proof.
  rewrite (proj2 (@unreadable_completion_is_a_500 sample_engine no_choice_world
             post_fever_cough
             (fst (call_gateway sample_engine no_choice_world post_fever_cough []))
             {| up_status := 200; up_text := txt "{'choices':[]}" |}
             ltac:(split; vm_compute; reflexivity) eq_refl)
             (JObj [ (str "choices", JArr []) ])).
  - reflexivity.
  - vm_compute; reflexivity.
  - vm_compute; reflexivity.
Defined.

(** A reply that is a string without an opening brace, or without a
    closing brace, always gives the fallback. *)
Theorem reply_without_braces_gives_fallback
        (eng : Engine) (w : World) (req : Request)
        (tr : list event) (s : jsstring) :
  obtains_reply eng w req tr (Some (JStr s)) ->
  Forall (fun c => c <> 123%N) s \/ Forall (fun c => c <> 125%N) s ->
  handler eng w req =
    (tr ++ [ConsoleError (str "Failed to parse AI response:")],
     {| status := 200; headers := jsonHeaders; payload := JsonBody fallback |}).
Proof.
  intros Hr Hb. rewrite (handler_after_reply Hr).
  assert (Hn : regex_match s = None).
  { destruct (regex_match s) as [span|] eqn:E; [|reflexivity]. exfalso.
    apply regex_match_span in E as (pre & mid & post & -> & -> & _ & _).
    destruct Hb as [Hb | Hb].
    - apply Forall_app in Hb as [_ Hb]. apply Forall_app in Hb as [Hb _].
      inversion Hb; subst. congruence.
    - apply Forall_app in Hb as [_ Hb]. apply Forall_app in Hb as [Hb _].
      inversion Hb as [|? ? _ Hb']; subst.
      apply Forall_app in Hb' as [_ Hb']. inversion Hb'; subst. congruence. }
  unfold extract. rewrite Hn. reflexivity.
Qed.

Lemma reply_without_braces_gives_fallback_witness :
  handler sample_engine prose_world post_fever_cough =
    (fst (ai_reply sample_engine prose_world post_fever_cough [])
       ++ [ConsoleError (str "Failed to parse AI response:")],
     {| status := 200; headers := jsonHeaders; payload := JsonBody fallback |}).
Proof.
  apply (@reply_without_braces_gives_fallback sample_engine prose_world
           post_fever_cough
           (fst (ai_reply sample_engine prose_world post_fever_cough []))
           prose_reply).
  - split; vm_compute; reflexivity.
  - left. vm_compute. repeat constructor; discriminate.
Defined.

End HandlerEdges.

(* ================================================================= *)
(** * More on the symptom form *)
(* ================================================================= *)

Section FormProperties.

Import Symptoms Examples.

Lemma includes_In (l : list jsstring) (s : jsstring) :
  includes l s = true <-> In s l.
Proof.
  unfold includes. rewrite existsb_exists. split.
  - intros (x & Hx & E). apply streq_eq in E. now subst.
  - intros H. exists s. split; [assumption | apply streq_refl].
Qed.

Lemma selected_after_toggle (symptom : jsstring) (st : State) :
  selectedSymptoms (toggleSymptom symptom st) =
  if includes (selectedSymptoms st) symptom
  then filter (fun s => negb (streq s symptom)) (selectedSymptoms st)
  else selectedSymptoms st ++ [symptom].
Proof. reflexivity. Qed.

Lemma kept_iff (symptom x : jsstring) (l : list jsstring) :
  In x (filter (fun s => negb (streq s symptom)) l) <-> In x l /\ x <> symptom.
Proof.
  rewrite filter_In. split; intros [H1 H2]; split; try assumption.
  - apply negb_true_iff, streq_neq in H2. exact H2.
  - apply negb_true_iff, streq_neq. exact H2.
Qed.

Lemma toggle_keeps_NoDup (symptom : jsstring) (st : State) :
  NoDup (selectedSymptoms st) ->
  NoDup (selectedSymptoms (toggleSymptom symptom st)).
Proof.
  rewrite selected_after_toggle.
  destruct (includes (selectedSymptoms st) symptom) eqn:Hi.
  - apply NoDup_filter.
  - intros Hd. apply NoDup_app; [assumption | repeat constructor; auto |].
    intros a Ha [<- | []].
    apply includes_In in Ha. congruence.
Qed.

(** Ticking a check box flips the membership of its symptom and of no
    other, never creates a duplicate, and leaves the notes, the loading
    flag and the result alone. *)
Theorem toggleSymptom_flips_one (symptom other : jsstring) (st : State) :
  includes (selectedSymptoms (toggleSymptom symptom st)) symptom
    = negb (includes (selectedSymptoms st) symptom)
  /\ (other <> symptom ->
      includes (selectedSymptoms (toggleSymptom symptom st)) other
        = includes (selectedSymptoms st) other)
  /\ (NoDup (selectedSymptoms st) ->
      NoDup (selectedSymptoms (toggleSymptom symptom st)))
  /\ notes (toggleSymptom symptom st) = notes st
  /\ loading (toggleSymptom symptom st) = loading st
  /\ analysisResult (toggleSymptom symptom st) = analysisResult st.
Proof.
  rewrite selected_after_toggle.
  destruct (includes (selectedSymptoms st) symptom) eqn:Hi.
  - split; [|split; [|split]].
    + cbn [negb]. destruct (includes (filter _ _) symptom) eqn:E; [|reflexivity].
      apply includes_In, kept_iff in E as [_ E]. contradiction.
    + intros Hne.
      destruct (includes (selectedSymptoms st) other) eqn:Ho.
      * apply includes_In. apply kept_iff. split; [now apply includes_In|assumption].
      * destruct (includes (filter _ _) other) eqn:E; [|reflexivity].
        apply includes_In, kept_iff in E as [E _].
        apply includes_In in E. congruence.
    + apply NoDup_filter.
    + repeat split.
  - split; [|split; [|split]].
    + cbn [negb]. apply includes_In, in_or_app. right. now left.
    + intros Hne. unfold includes. rewrite existsb_app. cbn [existsb].
      assert (E : streq other symptom = false) by now apply streq_neq.
      rewrite E. cbn [orb]. now rewrite orb_false_r.
    + intros Hd. apply NoDup_app; [assumption | repeat constructor; auto |].
      intros a Ha [<- | []].
      apply includes_In in Ha. congruence.
    + repeat split.
Qed.

Lemma toggles_invariant (clicks : list jsstring) (st : State) :
  Forall (fun s => In s COMMON_SYMPTOMS) clicks ->
  NoDup (selectedSymptoms st) ->
  incl (selectedSymptoms st) COMMON_SYMPTOMS ->
  NoDup (selectedSymptoms (toggles clicks st))
  /\ incl (selectedSymptoms (toggles clicks st)) COMMON_SYMPTOMS.
Proof.
  unfold toggles. intros Hc. revert st.
  induction Hc as [|c clicks Hin _ IH]; intros st Hd Hs; [now split|].
  cbn [fold_left]. apply IH.
  - now apply toggle_keeps_NoDup.
  - rewrite selected_after_toggle.
    destruct (includes (selectedSymptoms st) c).
    + intros x Hx. apply kept_iff in Hx as [Hx _]. now apply Hs.
    + intros x Hx. apply in_app_or in Hx as [Hx | [<- | []]]; auto.
Qed.

(** Whatever check boxes of the list are ticked, in whatever order and
    however often, starting from the empty form: the selection has no
    duplicate, holds only symptoms of the list, and so has at most 15
    entries. *)
Theorem selection_stays_within_the_list (clicks : list jsstring) :
  Forall (fun s => In s COMMON_SYMPTOMS) clicks ->
  NoDup (selectedSymptoms (toggles clicks initial))
  /\ incl (selectedSymptoms (toggles clicks initial)) COMMON_SYMPTOMS
  /\ length (selectedSymptoms (toggles clicks initial)) <= 15.
Proof.
  intros Hc.
  destruct (@toggles_invariant clicks initial Hc) as [Hd Hi].
  - constructor.
  - intros x [].
  - split; [assumption|]. split; [assumption|].
    change 15 with (length COMMON_SYMPTOMS). now apply NoDup_incl_length.
Qed.

Lemma selection_stays_within_the_list_witness :
  NoDup (selectedSymptoms (toggles [str "Fever"; str "Cough"; str "Fever"] initial))
  /\ incl (selectedSymptoms (toggles [str "Fever"; str "Cough"; str "Fever"] initial))
          COMMON_SYMPTOMS
  /\ length (selectedSymptoms (toggles [str "Fever"; str "Cough"; str "Fever"] initial))
     <= 15.
Proof.
  apply (@selection_stays_within_the_list [str "Fever"; str "Cough"; str "Fever"]).
  repeat constructor; vm_compute; tauto.
Defined.

End FormProperties.

Section SubmissionProperties.

Import Symptoms Examples.

(** The events of a submission, path by path. *)
Lemma handleSubmit_paths (w : World) (st : State) :
  (selectedSymptoms st = [] /\
   handleSubmit w st =
     [ PreventDefault; ToastError (str "Please select at least one symptom") ])
  \/ (selectedSymptoms st <> [] /\ user w = None /\
      handleSubmit w st =
        [ PreventDefault; SetLoading true; Navigate (str "/auth"); SetLoading false ])
  \/ (exists uid,
        selectedSymptoms st <> [] /\ user w = Some uid /\
        handleSubmit w st =
          [ PreventDefault; SetLoading true;
            InsertSymptomEntry uid (selectedSymptoms st)
              (match notes st with [] => None | n => Some n end) ]
          ++ match symptomEntry w with
             | inl symptomError =>
                 [ ConsoleError (str "Submit error:");
                   ToastError (message_or symptomError (str "Failed to log symptoms")) ]
             | inr entry_id => analyse_and_save w st uid entry_id
             end
          ++ [ SetLoading false ]).
Proof.
  destruct (selectedSymptoms st) as [|s l] eqn:Hs.
  - left. split; [reflexivity|]. unfold handleSubmit. now rewrite Hs.
  - right. destruct (user w) as [uid|] eqn:Hu.
    + right. exists uid. split; [discriminate|]. split; [reflexivity|].
      rewrite <- Hs. apply handleSubmit_signed_in; [rewrite Hs; discriminate|assumption].
    + left. split; [discriminate|]. split; [reflexivity|].
      unfold handleSubmit, try_catch_block. now rewrite Hs, Hu.
Qed.

(** Nothing leaves the page unless something is ticked and a user is
    signed in: with an empty selection the submission only shows the
    "Please select at least one symptom" toast and changes no state, and
    with nobody signed in it only goes to the sign-in page. *)
Theorem nothing_sent_without_selection_and_user (w : World) (st : State) :
  (selectedSymptoms st = [] ->
   handleSubmit w st =
     [ PreventDefault; ToastError (str "Please select at least one symptom") ]
   /\ after w st = st)
  /\ (selectedSymptoms st <> [] -> user w = None ->
      handleSubmit w st =
        [ PreventDefault; SetLoading true; Navigate (str "/auth"); SetLoading false ])
  /\ (existsb is_remote (handleSubmit w st) = true ->
      selectedSymptoms st <> [] /\ exists uid, user w = Some uid).
Proof.
  destruct (handleSubmit_paths w st)
    as [[Hs Hrun] | [(Hs & Hu & Hrun) | (uid & Hs & Hu & Hrun)]].
  - split; [|split].
    + intros _. split; [exact Hrun|]. unfold after. rewrite Hrun. reflexivity.
    + intros Hn. contradiction.
    + rewrite Hrun. discriminate.
  - split; [|split].
    + intros He. contradiction.
    + intros _ _. exact Hrun.
    + rewrite Hrun. discriminate.
  - split; [|split].
    + intros He. contradiction.
    + intros _ Hn. congruence.
    + intros _. split; [assumption|]. now exists uid.
Qed.

Lemma setters_keep_the_form (l : list event) (st : State) :
  selectedSymptoms (fold_left apply l st) = selectedSymptoms st
  /\ notes (fold_left apply l st) = notes st.
Proof.
  revert st. induction l as [|e l IH]; intros st; [now split|].
  cbn [fold_left]. destruct (IH (apply st e)) as [-> ->].
  destruct e; split; reflexivity.
Qed.

Lemma result_after_submission (w : World) (st : State) :
  analysisResult (after w st)
  = match selectedSymptoms st, user w, symptomEntry w, analysisError w with
    | _ :: _, Some _, inr _, None =>
        if truthy (analysis w) then analysis w else analysisResult st
    | _, _, _, _ => analysisResult st
    end.
Proof.
  unfold after.
  destruct (handleSubmit_paths w st)
    as [[Hs ->] | [(Hs & Hu & ->) | (uid & Hs & Hu & ->)]].
  - now rewrite Hs.
  - rewrite Hu. now destruct (selectedSymptoms st).
  - rewrite Hu. destruct (selectedSymptoms st) as [|s l] eqn:E; [contradiction|].
    clear Hs. destruct (symptomEntry w) as [e|entry_id]; [reflexivity|].
    unfold analyse_and_save.
    destruct (analysisError w); [reflexivity|].
    destruct (truthy (analysis w)); [|reflexivity].
    destruct (assessmentError w); reflexivity.
Qed.

(** A submission never changes the selection or the notes; it leaves the
    loading flag off whenever it got past the empty-selection check; and
    it stores a result only when the entry was saved and the analysis call
    gave a truthy value without an error: then the result is that value,
    otherwise the result is what it was. *)
Theorem state_after_submission (w : World) (st : State) :
  selectedSymptoms (after w st) = selectedSymptoms st
  /\ notes (after w st) = notes st
  /\ loading (after w st)
     = match selectedSymptoms st with [] => loading st | _ => false end
  /\ analysisResult (after w st)
     = match selectedSymptoms st, user w, symptomEntry w, analysisError w with
       | _ :: _, Some _, inr _, None =>
           if truthy (analysis w) then analysis w else analysisResult st
       | _, _, _, _ => analysisResult st
       end.
Proof.
  unfold after.
  destruct (handleSubmit_paths w st)
    as [[Hs ->] | [(Hs & Hu & ->) | (uid & Hs & Hu & ->)]].
  - split; [reflexivity|]. split; [reflexivity|]. rewrite Hs. split; reflexivity.
  - split; [reflexivity|]. split; [reflexivity|]. rewrite Hu.
    destruct (selectedSymptoms st); [contradiction|]. split; reflexivity.
  - split; [apply setters_keep_the_form|]. split; [apply setters_keep_the_form|].
    rewrite Hu.
    destruct (selectedSymptoms st) as [|s l] eqn:E; [contradiction|].
    clear Hs. destruct (symptomEntry w) as [e|entry_id]; [split; reflexivity|].
    unfold analyse_and_save.
    destruct (analysisError w); [split; reflexivity|].
    destruct (truthy (analysis w)); [|split; reflexivity].
    destruct (assessmentError w); split; reflexivity.
Qed.

(** When the entry is saved and the analysis call fails, the entry is
    kept: the submission shows the error toast "Failed to get AI analysis"
    and then the success toast all the same, stores no assessment and no
    result. *)
Theorem analysis_failure_keeps_the_entry
        (w : World) (st : State) (uid entry_id : jsstring) (error : ClientError) :
  selectedSymptoms st <> [] ->
  user w = Some uid ->
  symptomEntry w = inr entry_id ->
  analysisError w = Some error ->
  handleSubmit w st =
    [ PreventDefault; SetLoading true;
      InsertSymptomEntry uid (selectedSymptoms st)
        (match notes st with [] => None | n => Some n end);
      Invoke (str "analyze-symptoms") (selectedSymptoms st);
      ConsoleError (str "Analysis error:");
      ToastError (str "Failed to get AI analysis");
      ToastSuccess (str "Symptoms logged successfully!");
      SetLoading false ]
  /\ analysisResult (after w st) = analysisResult st.
Proof.
  intros Hs Hu He Ha.
  assert (Hrun : handleSubmit w st =
    [ PreventDefault; SetLoading true;
      InsertSymptomEntry uid (selectedSymptoms st)
        (match notes st with [] => None | n => Some n end);
      Invoke (str "analyze-symptoms") (selectedSymptoms st);
      ConsoleError (str "Analysis error:");
      ToastError (str "Failed to get AI analysis");
      ToastSuccess (str "Symptoms logged successfully!");
      SetLoading false ]).
  { rewrite (handleSubmit_signed_in w st Hs Hu), He.
    unfold analyse_and_save. now rewrite Ha. }
  split; [exact Hrun|]. unfold after. now rewrite Hrun.
Qed.

Lemma analysis_failure_keeps_the_entry_witness :
  handleSubmit analysis_failed fever_cough =
    [ PreventDefault; SetLoading true;
      InsertSymptomEntry (str "user-1") [str "Fever"; str "Cough"] None;
      Invoke (str "analyze-symptoms") [str "Fever"; str "Cough"];
      ConsoleError (str "Analysis error:");
      ToastError (str "Failed to get AI analysis");
      ToastSuccess (str "Symptoms logged successfully!");
      SetLoading false ]
  /\ analysisResult (after analysis_failed fever_cough) = Some JNull.
Proof.
  apply (@analysis_failure_keeps_the_entry analysis_failed fever_cough
           (str "user-1") (str "entry-1")
           {| message := str "Edge Function returned a non-2xx status code" |}).
  - discriminate.
  - reflexivity.
  - reflexivity.
  - reflexivity.
Defined.

(** An assessment is stored at most once per submission, and only for the
    entry that this submission has just saved, for the signed-in user who
    owns that entry, with the truthy analysis as its predictions. *)
Theorem assessment_belongs_to_the_new_entry (w : World) (st : State) :
  length (filter is_assessment_insert (handleSubmit w st)) <= 1
  /\ forall sid uid p rl,
       In (InsertRiskAssessment sid uid p rl) (handleSubmit w st) ->
       user w = Some uid /\ symptomEntry w = inr sid /\
       p = analysis w /\ truthy p = true /\
       In (InsertSymptomEntry uid (selectedSymptoms st)
             (match notes st with [] => None | n => Some n end))
          (handleSubmit w st).
Proof.
  split.
  - destruct (handleSubmit_paths w st)
      as [[Hs ->] | [(Hs & Hu & ->) | (uid & Hs & Hu & ->)]];
      try (cbn; lia).
    destruct (symptomEntry w) as [e|entry_id]; [cbn; lia|].
    unfold analyse_and_save.
    destruct (analysisError w); [cbn; lia|].
    destruct (truthy (analysis w)); [|cbn; lia].
    destruct (assessmentError w); cbn; lia.
  - intros sid uid p rl Hin.
    destruct (assessment_insert_path Hin) as (Hs & Hu & He & _ & Ht & -> & _).
    repeat split; try assumption.
    rewrite (handleSubmit_signed_in w st Hs Hu). cbn. auto.
Qed.

(** The [risk_level] of the row passes the column's CHECK exactly when the
    analysis has no truthy [riskLevel] (then "medium" is stored) or has
    one of the strings low, medium, high. *)
Theorem risk_level_accepted_iff (analysis : jsval) :
  Schema.risk_level_accepts (risk_level_of analysis) = true
  <-> (truthy (riskLevel analysis) = false
       \/ exists s, riskLevel analysis = Some (JStr s)
                    /\ Schema.risk_level_check s = true).
Proof.
  unfold risk_level_of, or_else.
  destruct (truthy (riskLevel analysis)) eqn:Ht.
  - split.
    + intros H. right.
      destruct (riskLevel analysis) as [[ | | | s | | ]|]; try discriminate.
      now exists s.
    + intros [H | (s & -> & Hc)]; [discriminate | exact Hc].
  - split; [now left | reflexivity].
Qed.

End SubmissionProperties.

(* ================================================================= *)
(** * More on the dashboard and the tables *)
(* ================================================================= *)

Section QueryFacts.

Import Schema.

Variable A : Type.
Variable key : A -> Z.

Lemma In_firstn (n : nat) (l : list A) (x : A) : In x (firstn n l) -> In x l.
Proof.
  intros H. rewrite <- (firstn_skipn n l). apply in_or_app. now left.
Qed.

Lemma In_recent (n : nat) (l : list A) (x : A) :
  In x (firstn n (order_desc key l)) -> In x l.
Proof.
  intros H. apply In_firstn in H.
  eapply Permutation_in; [apply order_desc_perm | exact H].
Qed.

(** The first row in descending order is at least as recent as any row. *)
Lemma head_recent (n : nat) (l : list A) (a : A) (rest : list A) :
  firstn n (order_desc key l) = a :: rest ->
  In a l /\ forall b, In b l -> not_older key a b.
Proof.
  intros E. split.
  - apply (In_recent n). rewrite E. now left.
  - intros b Hb.
    destruct (firstn_order_desc_most_recent key n l) as (_ & Hs & older & Hp & Ho).
    rewrite E in Hs, Hp, Ho.
    apply (Permutation_in b (Permutation_sym Hp)) in Hb.
    apply in_app_or in Hb as [[<- | Hb] | Hb].
    + unfold not_older. lia.
    + inversion Hs as [|? ? _ Hf]; subst. rewrite Forall_forall in Hf. now apply Hf.
    + apply Ho; [now left | assumption].
Qed.

Lemma recent_nil_iff (n : nat) (l : list A) :
  firstn (S n) (order_desc key l) = [] <-> l = [].
Proof.
  split.
  - intros E. destruct l as [|x l]; [reflexivity|]. exfalso.
    pose proof (Permutation_length (order_desc_perm key (x :: l))) as Hl.
    destruct (order_desc key (x :: l)); [discriminate Hl | discriminate E].
  - intros ->. reflexivity.
Qed.

(** In a list in descending order the first row that satisfies a test is
    at least as recent as any other row that satisfies it. *)
Lemma find_most_recent (f : A -> bool) (l : list A) (a : A) :
  StronglySorted (not_older key) l -> find f l = Some a ->
  forall b, In b l -> f b = true -> not_older key a b.
Proof.
  induction 1 as [|x l Hs IH Hx]; simpl; [discriminate|].
  destruct (f x) eqn:Hfx.
  - intros E; injection E as <-. intros b [<- | Hb] _.
    + unfold not_older. lia.
    + rewrite Forall_forall in Hx. now apply Hx.
  - intros E b [<- | Hb] Hfb; [congruence|]. now apply IH.
Qed.

End QueryFacts.

Section DashboardProperties.

Import Schema Dashboard Examples.

Lemma loaded_cases (w : World) :
  (symptomEntries (loaded w) = [] /\ riskAssessments (loaded w) = [])
  \/ exists uid,
       user w = Some uid /\ symptomsError w = None /\ assessmentsError w = None /\
       symptomEntries (loaded w) = map typed (recent_symptom_entries (db w) uid) /\
       riskAssessments (loaded w) = recent_risk_assessments (db w) uid.
Proof.
  unfold loaded, fetchDashboardData.
  destruct (user w) as [uid|]; [|now left].
  destruct (symptomsError w); [now left|].
  destruct (assessmentsError w); [now left|].
  right. exists uid. repeat split.
Qed.

Lemma loaded_assessments_sorted (w : World) :
  StronglySorted (not_older ra_created_at) (riskAssessments (loaded w)).
Proof.
  destruct (loaded_cases w) as [[_ ->] | (uid & _ & _ & _ & _ & ->)].
  - constructor.
  - unfold recent_risk_assessments. apply firstn_order_desc_most_recent.
Qed.

(** The "Latest Risk Level" card, for a table whose rows satisfy the
    CHECK of [risk_level]: it shows "None" exactly when no assessment was
    loaded, and otherwise the risk level, one of low, medium and high, of
    a loaded row of the table that is at least as recent as every loaded
    assessment. *)
Theorem latest_card_shows_most_recent (w : World) :
  Forall (fun a => risk_level_check (ra_risk_level a) = true)
         (risk_assessments (db w)) ->
  (latest_risk_level (loaded w) = str "None" <-> riskAssessments (loaded w) = [])
  /\ (forall a rest, riskAssessments (loaded w) = a :: rest ->
        latest_risk_level (loaded w) = ra_risk_level a
        /\ In a (risk_assessments (db w))
        /\ (ra_risk_level a = str "low" \/ ra_risk_level a = str "medium"
            \/ ra_risk_level a = str "high")
        /\ forall b, In b (riskAssessments (loaded w)) ->
                     (ra_created_at b <= ra_created_at a)%Z).
Proof.
  intros Hcheck.
  assert (Hrow : forall a rest, riskAssessments (loaded w) = a :: rest ->
            In a (risk_assessments (db w))
            /\ (ra_risk_level a = str "low" \/ ra_risk_level a = str "medium"
                \/ ra_risk_level a = str "high")).
  { intros a rest E.
    assert (Hin : In a (risk_assessments (db w))).
    { destruct (loaded_cases w) as [[_ Hl] | (uid & _ & _ & _ & _ & Hl)];
        rewrite Hl in E; [discriminate|].
      unfold recent_risk_assessments in E.
      assert (Ha : In a (firstn 10 (order_desc ra_created_at
                    (filter (fun a => can_view (db w) uid (ra_user_id a))
                            (risk_assessments (db w)))))) by (rewrite E; now left).
      apply In_recent in Ha. now apply filter_In in Ha as [Ha _]. }
    split; [exact Hin|].
    rewrite Forall_forall in Hcheck. specialize (Hcheck a Hin).
    unfold risk_level_check in Hcheck.
    apply orb_true_iff in Hcheck as [H | H];
      [apply orb_true_iff in H as [H | H]|]; apply streq_eq in H; auto. }
  split.
  - unfold latest_risk_level.
    destruct (riskAssessments (loaded w)) as [|a rest] eqn:E; [tauto|].
    destruct (Hrow a rest eq_refl) as [_ [H | [H | H]]]; rewrite H;
      split; intros H'; discriminate H'.
  - intros a rest E. destruct (Hrow a rest E) as [Hin Hlevel].
    split; [|split; [exact Hin|split; [exact Hlevel|]]].
    + unfold latest_risk_level. rewrite E.
      destruct Hlevel as [H | [H | H]]; rewrite H; reflexivity.
    + pose proof (loaded_assessments_sorted w) as Hs. rewrite E in Hs.
      inversion Hs as [|? ? _ Hf]; subst.
      rewrite E. intros b [<- | Hb]; [lia|].
      rewrite Forall_forall in Hf. exact (Hf b Hb).
Qed.

(** Of two assessments the more recent one, with the level high, is on
    the card. *)
Lemma latest_card_shows_most_recent_witness :
  latest_risk_level (loaded two_assessments_world) = str "high".
Proof.
  destruct (@latest_card_shows_most_recent two_assessments_world) as [_ H].
  - repeat constructor.
  - destruct (H {| ra_id := str "a-2"; ra_symptom_entry_id := str "e-2";
                   ra_user_id := str "user-1"; ra_predictions := JNull;
                   ra_risk_level := str "high"; ra_created_at := 2 |}
                [ {| ra_id := str "a-1"; ra_symptom_entry_id := str "e-1";
                     ra_user_id := str "user-1"; ra_predictions := JNull;
                     ra_risk_level := str "low"; ra_created_at := 1 |} ]
                eq_refl) as [Hcard _].
    exact Hcard.
Defined.

End DashboardProperties.

Section DashboardMore.

Import Schema Dashboard Examples.


(** After the load, for a table whose rows satisfy the CHECK of
    [risk_level]: when a loaded assessment refers to an entry, the line
    of that entry in the export carries the risk level of the most recent
    loaded assessment that refers to it. *)
Theorem export_takes_most_recent_assessment
        (eng : Engine) (w : World) (entry : SymptomEntry) (b : risk_assessment) :
  Forall (fun a => risk_level_check (ra_risk_level a) = true)
         (risk_assessments (db w)) ->
  In b (riskAssessments (loaded w)) ->
  ra_symptom_entry_id b = id entry ->
  exists a,
    In a (riskAssessments (loaded w))
    /\ ra_symptom_entry_id a = id entry
    /\ (forall c, In c (riskAssessments (loaded w)) ->
                  ra_symptom_entry_id c = id entry ->
                  (ra_created_at c <= ra_created_at a)%Z)
    /\ csv_row eng (riskAssessments (loaded w)) entry =
         toLocaleDateString eng (created_at entry)
         ++ [44%N; 34%N] ++ join eng (symptoms entry) [44%N; 32%N]
         ++ [34%N; 44%N] ++ ra_risk_level a
         ++ [44%N; 34%N]
         ++ match notes entry with Some n => n | None => [] end
         ++ [34%N].
Proof.
  intros Hcheck Hb Hbe.
  destruct (find_assessment (riskAssessments (loaded w)) entry) as [a|] eqn:Hf.
  - destruct (find_assessment_some _ _ Hf) as [Hin He].
    exists a. split; [exact Hin|]. split; [exact He|]. split.
    + intros c Hc Hce.
      eapply (@find_most_recent _ ra_created_at);
        [apply loaded_assessments_sorted | exact Hf | exact Hc |].
      apply streq_eq. exact Hce.
    + assert (Hne : ra_risk_level a <> []).
      { apply risk_level_check_nonempty.
        rewrite Forall_forall in Hcheck. apply Hcheck.
        destruct (loaded_cases w) as [[_ Hl] | (uid & _ & _ & _ & _ & Hl)];
          rewrite Hl in Hin; [contradiction|].
        unfold recent_risk_assessments in Hin. apply In_recent in Hin.
        now apply filter_In in Hin as [Hin _]. }
      unfold csv_row, quoted. rewrite Hf. cbn [concat_sep risk_column].
      change (str ",") with [44%N]. change (str ", ") with [44%N; 32%N].
      destruct (ra_risk_level a) as [|c r]; [contradiction|].
      repeat (rewrite <- ?app_assoc; cbn [app]). reflexivity.
  - exfalso. unfold find_assessment in Hf.
    pose proof (find_none _ _ Hf b Hb) as Hn. cbv beta in Hn.
    apply streq_neq in Hn. contradiction.
Qed.

(** Of the two assessments of the entry e-1 the line takes the more
    recent one, with the level high. *)
Lemma export_takes_most_recent_assessment_witness :
  exists a,
    In a (riskAssessments (loaded assessed_twice_world))
    /\ ra_symptom_entry_id a = str "e-1"
    /\ (forall c, In c (riskAssessments (loaded assessed_twice_world)) ->
                  ra_symptom_entry_id c = str "e-1" ->
                  (ra_created_at c <= ra_created_at a)%Z)
    /\ csv_row sample_engine (riskAssessments (loaded assessed_twice_world))
               {| id := str "e-1"; symptoms := [JStr (str "Fever")];
                  notes := None; created_at := 1 |} =
         str "11/2/2026"
         ++ [44%N; 34%N] ++ join sample_engine [JStr (str "Fever")] [44%N; 32%N]
         ++ [34%N; 44%N] ++ ra_risk_level a
         ++ [44%N; 34%N] ++ [] ++ [34%N].
Proof.
  apply (@export_takes_most_recent_assessment sample_engine assessed_twice_world
           {| id := str "e-1"; symptoms := [JStr (str "Fever")];
              notes := None; created_at := 1 |}
           {| ra_id := str "a-1"; ra_symptom_entry_id := str "e-1";
              ra_user_id := str "user-1"; ra_predictions := JNull;
              ra_risk_level := str "low"; ra_created_at := 1 |}).
  - repeat constructor.
  - vm_compute. right. left. reflexivity.
  - reflexivity.
Defined.

(** The line of that export. *)
Example export_of_an_entry_assessed_twice :
  csvContent sample_engine (loaded assessed_twice_world)
  = str "Date,Symptoms,Risk Level,Notes" ++ [10%N] ++
    txt "11/2/2026,'Fever',high,''".
Proof. vm_compute. reflexivity. Qed.

Lemma getRiskColor_of_level (level : jsstring) :
  risk_level_check level = true ->
  (level = str "high" /\ getRiskColor level = str "text-destructive")
  \/ (level = str "medium" /\ getRiskColor level = str "text-accent")
  \/ (level = str "low" /\ getRiskColor level = str "text-secondary").
Proof.
  unfold risk_level_check. intros H.
  apply orb_true_iff in H as [H | H]; [apply orb_true_iff in H as [H | H]|];
    apply streq_eq in H; subst level.
  - right. right. split; reflexivity.
  - right. left. split; reflexivity.
  - left. split; reflexivity.
Qed.

(** The dashboard colours a risk level muted exactly when it is none of
    the three levels of the table's CHECK, and gives the three levels
    three different colours. *)
Theorem muted_iff_outside_the_check (level other : jsstring) :
  (getRiskColor level = str "text-muted-foreground"
   <-> risk_level_check level = false)
  /\ (risk_level_check level = true -> risk_level_check other = true ->
      getRiskColor level = getRiskColor other -> level = other).
Proof.
  split; [split|].
  - intros H. destruct (risk_level_check level) eqn:E; [|reflexivity].
    destruct (getRiskColor_of_level _ E) as [[_ Hc] | [[_ Hc] | [_ Hc]]];
      rewrite Hc in H; vm_compute in H; discriminate.
  - unfold risk_level_check, getRiskColor. intros H.
    apply orb_false_iff in H as [H Hh]. apply orb_false_iff in H as [Hl Hm].
    now rewrite Hh, Hm, Hl.
  - intros Hl Ho.
    destruct (getRiskColor_of_level _ Hl) as [[-> ->] | [[-> ->] | [-> ->]]];
      destruct (getRiskColor_of_level _ Ho) as [[-> ->] | [[-> ->] | [-> ->]]];
      intros H; try reflexivity; vm_compute in H; discriminate.
Qed.

(** A load that fails changes nothing but the loading flag, which is off
    after every load: with nobody signed in the page goes to the sign-in
    page; when either query fails, the rows of the other one are dropped
    as well and the error's message is shown. *)
Theorem failed_load_keeps_the_page (w : World) (st : State) :
  loading (snd (fetchDashboardData w st)) = false
  /\ (user w = None ->
      fst (fetchDashboardData w st) = [ Navigate (str "/auth") ]
      /\ symptomEntries (snd (fetchDashboardData w st)) = symptomEntries st
      /\ riskAssessments (snd (fetchDashboardData w st)) = riskAssessments st)
  /\ (forall uid error,
        user w = Some uid ->
        symptomsError w = Some error
        \/ (symptomsError w = None /\ assessmentsError w = Some error) ->
        fst (fetchDashboardData w st)
          = [ ToastError (message_or error (str "Failed to load dashboard data")) ]
        /\ symptomEntries (snd (fetchDashboardData w st)) = symptomEntries st
        /\ riskAssessments (snd (fetchDashboardData w st)) = riskAssessments st).
Proof.
  unfold fetchDashboardData. split; [|split].
  - destruct (user w); [|reflexivity].
    destruct (symptomsError w); [reflexivity|].
    destruct (assessmentsError w); reflexivity.
  - intros ->. repeat split.
  - intros uid error -> [-> | [-> ->]]; repeat split.
Qed.

(** When no line of the export holds a line feed of its own (no date, no
    symptom, no risk level and no note has one), the content has exactly
    one line feed per symptom entry. *)
Theorem one_line_feed_per_entry (eng : Engine) (st : State) :
  Forall (fun row => ~ In 10%N row) (csv_rows eng st) ->
  count_occ N.eq_dec (csvContent eng st) 10%N = length (symptomEntries st).
Proof.
  intros H. unfold csvContent. rewrite (count_line_feeds H).
  unfold csv_rows. cbn [length pred]. apply length_map.
Qed.

Lemma one_line_feed_per_entry_witness :
  count_occ N.eq_dec (csvContent sample_engine one_entry_page) 10%N
  = length (symptomEntries one_entry_page).
Proof.
  apply (@one_line_feed_per_entry sample_engine one_entry_page).
  vm_compute. repeat constructor; intros H;
    repeat (destruct H as [H | H]; [discriminate|]); exact H.
Defined.

(** Reading the top condition of a stored assessment never throws,
    whatever the stored predictions are: it is the first condition when
    the predictions are an object with a non-empty list of conditions, and
    [undefined] when they are [null], have no conditions, or an empty
    list. *)
Theorem topCondition_never_throws (eng : Engine) (assessment : risk_assessment) :
  (exists v, topCondition eng assessment = inr v)
  /\ (forall ms c l,
        ra_predictions assessment = JObj ms ->
        lookup (str "conditions") ms = Some (JArr (c :: l)) ->
        topCondition eng assessment = inr (Some c))
  /\ (forall ms,
        ra_predictions assessment = JObj ms ->
        lookup (str "conditions") ms = None
        \/ lookup (str "conditions") ms = Some (JArr []) ->
        topCondition eng assessment = inr None)
  /\ (ra_predictions assessment = JNull -> topCondition eng assessment = inr None).
Proof.
  unfold topCondition. split; [|split; [|split]].
  - destruct (ra_predictions assessment) as [ | | | | |ms]; cbn [get];
      try (eexists; reflexivity).
    destruct (lookup (str "conditions") ms) as [[ | | | s | l | cs]|];
      cbn [get0]; eexists; reflexivity.
  - intros ms c l -> H. cbn [get]. now rewrite H.
  - intros ms -> [H | H]; cbn [get]; now rewrite H.
  - now intros ->.
Qed.

(** A sign-up that goes through adds one profile, for the new user, with
    the role patient, which the role CHECK accepts, and a full name that
    is not NULL: the name of the sign-up data, or the empty text; no
    profile had the new user's id; the profiles with the role admin are
    those of before; no entry and no assessment is touched.  A sign-up
    for an id that has a profile is refused. *)
Theorem new_user_is_a_patient
        (db db' : database) (new_id : jsstring) (meta_full_name : option jsstring) :
  handle_new_user db new_id meta_full_name = Some db' ->
  (forall p, In p (profiles db) -> profile_id p <> new_id)
  /\ (exists p name,
        profiles db' = profiles db ++ [p] /\ profile_id p = new_id /\
        role p = str "patient" /\ role_check (role p) = true /\
        full_name p = Some name /\
        (forall n, meta_full_name = Some n -> name = n) /\
        (meta_full_name = None -> name = []))
  /\ filter (fun p => streq (role p) (str "admin")) (profiles db')
     = filter (fun p => streq (role p) (str "admin")) (profiles db)
  /\ symptom_entries db' = symptom_entries db
  /\ risk_assessments db' = risk_assessments db
  /\ (forall name, handle_new_user db' new_id name = None).
Proof.
  unfold handle_new_user.
  destruct (existsb (fun p => streq (profile_id p) new_id) (profiles db)) eqn:Hx;
    [discriminate|].
  intros H; injection H as <-. cbn [profiles symptom_entries risk_assessments].
  split; [|split; [|split; [|split; [|split]]]]; try reflexivity.
  - intros p Hp E.
    assert (existsb (fun p => streq (profile_id p) new_id) (profiles db) = true).
    { apply existsb_exists. exists p. split; [exact Hp | now apply streq_eq]. }
    congruence.
  - eexists. eexists. split; [reflexivity|].
    split; [reflexivity|]. split; [reflexivity|]. split; [reflexivity|].
    split; [reflexivity|]. split.
    + now intros n ->.
    + now intros ->.
  - rewrite filter_app. cbn [filter role].
    replace (streq (str "patient") (str "admin")) with false by reflexivity.
    apply app_nil_r.
  - intros name. rewrite existsb_app. cbn [existsb profile_id].
    now rewrite streq_refl, !orb_true_r.
Qed.

(** A second user signs up without a name. *)
Lemma new_user_is_a_patient_witness :
  exists p name,
    profiles one_patient ++
      [ {| profile_id := str "user-2"; role := str "patient";
           full_name := Some [] |} ]
    = profiles one_patient ++ [p] /\ profile_id p = str "user-2" /\
    role p = str "patient" /\ role_check (role p) = true /\
    full_name p = Some name /\
    (forall n, @None jsstring = Some n -> name = n) /\
    (@None jsstring = None -> name = []).
Proof.
  refine (proj1 (proj2 (@new_user_is_a_patient one_patient
            {| profiles := profiles one_patient ++
                 [ {| profile_id := str "user-2"; role := str "patient";
                      full_name := Some [] |} ];
               symptom_entries := []; risk_assessments := [] |}
            (str "user-2") None _))).
  vm_compute. reflexivity.
Defined.

End DashboardMore.
